(** * welfare_record_app: the record pipeline of [main.py]

    A shallow embedding of the override resolver and the spreadsheet writer
    of [main.py] ([process_data], [fill_excel]) together with the part of the
    Python runtime and of openpyxl they call, and the properties of the
    specification that concern them.

    Conventions.
    - A Python [str] is the list of its Unicode code points ([pystr]), so that
      [len], [startswith] and slicing count what Python counts.  Literals are
      written as UTF-8 text and decoded by [u8].
    - A Python [dict] is the list of its items in insertion order ([pydict]).
    - Code that can raise returns a [pyresult]; a [try]/[except Exception] is
      a [match] on it.
    - The worksheet model follows openpyxl 3.1 ([Worksheet.__getitem__],
      [Cell.value], [Alignment]); it tracks the value and the alignment of
      every cell and which cells are the read-only part of a merged range.
    - What the process reads from outside ([mapping_config.json], the file
      system, the clock, [uuid.uuid4], the answer of the model) is a field
      of the record [world]; the Unicode tables of the interpreter beyond
      ASCII are the class [UnicodeData]. *)

From Stdlib Require Import ZArith NArith List Lia Bool.
From Stdlib Require String Ascii.
From stdpp Require Import base option gmap list.
Import ListNotations.
Import String.StringSyntax.
Delimit Scope string_scope with string.

Local Open Scope N_scope.

(* ===================================================================== *)
(** ** Python strings *)
(* ===================================================================== *)

(** A [str]: the sequence of its code points. *)
Definition pystr : Type := list N.

Definition bytes_of_string (s : String.string) : list N :=
  map Ascii.N_of_ascii (String.list_ascii_of_string s).

(** UTF-8 decoding of a (well-formed) byte sequence into code points. *)
Fixpoint utf8_decode (bs : list N) : pystr :=
  match bs with
  | [] => []
  | b0 :: r0 =>
    if b0 <? 128 then b0 :: utf8_decode r0
    else match r0 with
    | [] => [b0]
    | b1 :: r1 =>
      if b0 <? 224 then ((b0 - 192) * 64 + (b1 - 128)) :: utf8_decode r1
      else match r1 with
      | [] => [b0; b1]
      | b2 :: r2 =>
        if b0 <? 240
        then ((b0 - 224) * 4096 + (b1 - 128) * 64 + (b2 - 128)) :: utf8_decode r2
        else match r2 with
        | [] => [b0; b1; b2]
        | b3 :: r3 =>
          ((b0 - 240) * 262144 + (b1 - 128) * 4096 + (b2 - 128) * 64 + (b3 - 128))
            :: utf8_decode r3
        end
      end
    end
  end.

(** The [str] denoted by a source literal. *)
Definition u8 (s : String.string) : pystr := utf8_decode (bytes_of_string s).
Arguments u8 s%_string.

Definition pystr_eqb (a b : pystr) : bool := bool_decide (a = b).

(** [s.startswith(p)] *)
Fixpoint startswith (s p : pystr) : bool :=
  match p, s with
  | [], _ => true
  | _ :: _, [] => false
  | c :: p', d :: s' => (c =? d) && startswith s' p'
  end.

(** [p in s] for two strings: [p] occurs in [s] as a substring. *)
Fixpoint py_in (p s : pystr) : bool :=
  startswith s p ||
  match s with
  | [] => false
  | _ :: s' => py_in p s'
  end.

(** [len(s)] *)
Definition len (s : pystr) : N := N.of_nat (length s).

(** [s.split(sep)] for a one-character separator. *)
Fixpoint split (sep : N) (s : pystr) : list pystr :=
  match s with
  | [] => [[]]
  | c :: s' =>
    if c =? sep then [] :: split sep s'
    else match split sep s' with
         | [] => [[c]]
         | p :: ps => (c :: p) :: ps
         end
  end.

(** [c.isspace()], the characters [str.strip()] removes. *)
Definition isspace (c : N) : bool :=
  ((9 <=? c) && (c <=? 13)) || ((28 <=? c) && (c <=? 32))
  || (c =? 133) || (c =? 160) || (c =? 5760)
  || ((8192 <=? c) && (c <=? 8202))
  || (c =? 8232) || (c =? 8233) || (c =? 8239) || (c =? 8287) || (c =? 12288).

Fixpoint lstrip (s : pystr) : pystr :=
  match s with
  | [] => []
  | c :: s' => if isspace c then lstrip s' else s
  end.

(** [s.strip()] *)
Definition strip (s : pystr) : pystr := rev (lstrip (rev (lstrip s))).

(** Truth value of an optional form field ([None] and [""] are false). *)
Definition truthy (o : option pystr) : bool :=
  match o with
  | Some (_ :: _) => true
  | _ => false
  end.

(** The guard [x and x.strip()] of the override block. *)
Definition provided (o : option pystr) : bool :=
  match o with
  | Some s => match s with [] => false | _ => negb (pystr_eqb (strip s) []) end
  | None => false
  end.

Definition is_ascii_digit (c : N) : bool := (48 <=? c) && (c <=? 57).
Definition is_ascii_alpha (c : N) : bool :=
  ((65 <=? c) && (c <=? 90)) || ((97 <=? c) && (c <=? 122)).

(** The Unicode character database of the interpreter, beyond ASCII: the
    decimal value of a code point of category Nd (what [\d] matches in a
    [str] regular expression and what [int] reads), and [str.isalnum] of a
    code point.  ASCII is fixed below; the rest of the table is a parameter
    of the development. *)
Class UnicodeData := {
  unicode_decimal : N -> option N;
  unicode_isalnum : N -> bool
}.

(** A table with no digit and no letter outside ASCII. *)
Definition ascii_only : UnicodeData :=
  {| unicode_decimal := fun _ => None; unicode_isalnum := fun _ => false |}.

Section Unicode.
Context {U : UnicodeData}.

(** Decimal value of a character matched by [\d]. *)
Definition digit_value (c : N) : option N :=
  if c <? 128 then (if is_ascii_digit c then Some (c - 48) else None)
  else unicode_decimal c.

(** [c.isalnum()] *)
Definition isalnum (c : N) : bool :=
  if c <? 128 then is_ascii_digit c || is_ascii_alpha c else unicode_isalnum c.

(** [int(s)] for a string of [\d] characters, most significant first. *)
Fixpoint int_of_digits (acc : N) (s : pystr) : option N :=
  match s with
  | [] => Some acc
  | c :: s' =>
    match digit_value c with
    | Some d => int_of_digits (acc * 10 + d) s'
    | None => None
    end
  end.

End Unicode.

(** Decimal digits of a number, as characters. *)
Fixpoint uint_chars (u : Decimal.uint) : pystr :=
  match u with
  | Decimal.Nil => []
  | Decimal.D0 u' => 48 :: uint_chars u'
  | Decimal.D1 u' => 49 :: uint_chars u'
  | Decimal.D2 u' => 50 :: uint_chars u'
  | Decimal.D3 u' => 51 :: uint_chars u'
  | Decimal.D4 u' => 52 :: uint_chars u'
  | Decimal.D5 u' => 53 :: uint_chars u'
  | Decimal.D6 u' => 54 :: uint_chars u'
  | Decimal.D7 u' => 55 :: uint_chars u'
  | Decimal.D8 u' => 56 :: uint_chars u'
  | Decimal.D9 u' => 57 :: uint_chars u'
  end.

(** [str(n)] for a natural number. *)
Definition str_of_N (n : N) : pystr := uint_chars (N.to_uint n).

(** [str(z)], as an f-string renders an [int]. *)
Definition str_of_Z (z : Z) : pystr :=
  match z with
  | Z.neg p => 45 :: str_of_N (Npos p)
  | _ => str_of_N (Z.to_N z)
  end.

(** Zero padding to width [w], as [%m], [%d], [%y] and [%Y] do. *)
Definition zfill (w : nat) (s : pystr) : pystr :=
  repeat 48 (w - length s)%nat ++ s.

(* ===================================================================== *)
(** ** Python dictionaries *)
(* ===================================================================== *)

(** A [dict] with [str] keys: its items in insertion order. *)
Definition pydict (V : Type) : Type := list (pystr * V).

Section Dict.
Context {V : Type}.

(** [d.get(k)] *)
Fixpoint dict_get (d : pydict V) (k : pystr) : option V :=
  match d with
  | [] => None
  | (k', v) :: d' => if pystr_eqb k' k then Some v else dict_get d' k
  end.

(** [k in d] *)
Definition dict_mem (d : pydict V) (k : pystr) : bool :=
  match dict_get d k with Some _ => true | None => false end.

(** [d[k] = v]: an existing key keeps its place, a new one goes last. *)
Fixpoint dict_set (d : pydict V) (k : pystr) (v : V) : pydict V :=
  match d with
  | [] => [(k, v)]
  | (k', v') :: d' =>
    if pystr_eqb k' k then (k', v) :: d' else (k', v') :: dict_set d' k v
  end.

(** The dictionary left by [d.pop(k, None)]. *)
Fixpoint dict_remove (d : pydict V) (k : pystr) : pydict V :=
  match d with
  | [] => []
  | (k', v') :: d' =>
    if pystr_eqb k' k then d' else (k', v') :: dict_remove d' k
  end.

End Dict.

(* ===================================================================== *)
(** ** Exceptions *)
(* ===================================================================== *)

(** The detail of an [HTTPException] raised by [main.py]. *)
Inductive http_detail :=
| InvalidTemplateID
| TemplateFileNotFound (path : pystr)
| NoInputProvided
| GeminiError
| AIProcessingFailed
| ExcelGenerationFailed.

(** The exceptions of the model; all of them derive from [Exception]. *)
Inductive pyexn :=
| HTTPException (status_code : Z) (detail : http_detail)
| ValueError
| TypeError
| AttributeError
| IndexError
| KeyError
| OSError
| IllegalCharacterError.

Inductive pyresult (A : Type) :=
| Ok (a : A)
| Raise (e : pyexn).
Arguments Ok {A} a.
Arguments Raise {A} e.

#[global] Instance pyresult_bind : MBind pyresult :=
  fun A B (k : A -> pyresult B) (r : pyresult A) =>
    match r with
    | Ok a => k a
    | Raise e => Raise e
    end.

#[global] Instance pyresult_ret : MRet pyresult := fun A (a : A) => Ok a.

(* ===================================================================== *)
(** ** [datetime] *)
(* ===================================================================== *)

Record datetime := { dt_year : N; dt_month : N; dt_day : N }.

Definition is_leap (y : N) : bool :=
  (y mod 4 =? 0) && (negb (y mod 100 =? 0) || (y mod 400 =? 0)).

Definition days_in_month (y m : N) : N :=
  if m =? 2 then (if is_leap y then 29 else 28)
  else if (m =? 4) || (m =? 6) || (m =? 9) || (m =? 11) then 30
  else 31.

Definition in_range (lo hi c : N) : bool := (lo <=? c) && (c <=? hi).

(** The alternatives of the directive [%m], [1[0-2]|0[1-9]|[1-9]], in the
    order the regular expression tries them: the month and the text left. *)
Definition month_alts (s : pystr) : list (N * pystr) :=
  (match s with
   | 49 :: c :: r => if in_range 48 50 c then [(10 + (c - 48), r)] else []
   | _ => []
   end) ++
  (match s with
   | 48 :: c :: r => if in_range 49 57 c then [(c - 48, r)] else []
   | _ => []
   end) ++
  (match s with
   | c :: r => if in_range 49 57 c then [(c - 48, r)] else []
   | _ => []
   end).

Section Strptime.
Context {U : UnicodeData}.

(** The alternatives of [%d], [3[0-1]|[1-2]\d|0[1-9]|[1-9]| [1-9]]. *)
Definition day_alts (s : pystr) : list (N * pystr) :=
  (match s with
   | 51 :: c :: r => if in_range 48 49 c then [(30 + (c - 48), r)] else []
   | _ => []
   end) ++
  (match s with
   | c :: d :: r =>
     if in_range 49 50 c
     then match digit_value d with
          | Some v => [((c - 48) * 10 + v, r)]
          | None => []
          end
     else []
   | _ => []
   end) ++
  (match s with
   | 48 :: c :: r => if in_range 49 57 c then [(c - 48, r)] else []
   | _ => []
   end) ++
  (match s with
   | c :: r => if in_range 49 57 c then [(c - 48, r)] else []
   | _ => []
   end) ++
  (match s with
   | 32 :: c :: r => if in_range 49 57 c then [(c - 48, r)] else []
   | _ => []
   end).

(** The match of the regular expression that [_strptime] compiles from
    ["%Y-%m-%d"], [(\d\d\d\d)-(1[0-2]|0[1-9]|[1-9])-(3[0-1]|...)], at the
    start of [s]: year, month, day and the unconverted rest. *)
Definition match_ymd (s : pystr) : option (N * N * N * pystr) :=
  match s with
  | y1 :: y2 :: y3 :: y4 :: 45 :: r =>
    match int_of_digits 0 [y1; y2; y3; y4] with
    | Some y =>
      head (flat_map
              (fun mr : N * pystr =>
                 match snd mr with
                 | 45 :: r2 =>
                   match head (day_alts r2) with
                   | Some (d, rest) => [(y, fst mr, d, rest)]
                   | None => []
                   end
                 | _ => []
                 end)
              (month_alts r))
    | None => None
    end
  | _ => None
  end.

(** [datetime.datetime.strptime(s, "%Y-%m-%d")]; [None] stands for the
    [ValueError] it raises: no match, unconverted data, or no such day. *)
Definition strptime (s : pystr) : option datetime :=
  match match_ymd s with
  | Some (y, m, d, []) =>
    if (1 <=? y) && (1 <=? d) && (d <=? days_in_month y m)
    then Some {| dt_year := y; dt_month := m; dt_day := d |}
    else None
  | _ => None
  end.

End Strptime.

(** [dt.strftime("%Y年%m月%d日")] *)
Definition strftime_ymd_kanji (dt : datetime) : pystr :=
  zfill 4 (str_of_N (dt_year dt)) ++ u8 "年" ++
  zfill 2 (str_of_N (dt_month dt)) ++ u8 "月" ++
  zfill 2 (str_of_N (dt_day dt)) ++ u8 "日".

(** [dt.strftime("%y.%m.%d")] *)
Definition strftime_ymd_dots (dt : datetime) : pystr :=
  zfill 2 (str_of_N (dt_year dt mod 100)) ++ u8 "." ++
  zfill 2 (str_of_N (dt_month dt)) ++ u8 "." ++
  zfill 2 (str_of_N (dt_day dt)).

(* ===================================================================== *)
(** ** Values and the override resolver of [process_data] *)
(* ===================================================================== *)

(** A value of the extracted mapping: [None], a [str] or an [int]. *)
Inductive pyval :=
| PNone
| PStr (s : pystr)
| PInt (z : Z).

#[global] Instance pyval_eq_dec : EqDecision pyval.
Proof. solve_decision. Defined.

(** Truth value of a mapping entry. *)
Definition pyval_truthy (v : pyval) : bool :=
  match v with
  | PNone => false
  | PStr s => match s with [] => false | _ => true end
  | PInt z => negb (Z.eqb z 0)
  end.

(** The form of [POST /process]. *)
Record upload_file := { uf_filename : option pystr }.

Record request := {
  template_id : pystr;
  text_input : option pystr;
  user_name : option pystr;
  user_name_furigana : option pystr;
  staff_name : option pystr;
  date : option pystr;
  location : option pystr;
  time : option pystr;
  count : option pystr;
  next_date : option pystr;
  cm_location : option pystr;
  cm_time : option pystr;
  cm_attendees : option pystr;
  cm_service_manager : option pystr;
  files : option (list upload_file)
}.

(** [if x and x.strip(): body], on the mapping. *)
Definition when_provided (o : option pystr)
    (body : pystr -> pydict pyval -> pydict pyval)
    (mapping : pydict pyval) : pydict pyval :=
  match o with
  | Some x => if provided (Some x) then body x mapping else mapping
  | None => mapping
  end.

Section Overrides.
Context {U : UnicodeData}.

(** The body of [if date and date.strip()]: the [try] around [strptime]
    and the seven assignments, with [except ValueError: pass]. *)
Definition date_override (d : pystr) (mapping : pydict pyval) : pydict pyval :=
  match strptime d with
  | Some dt =>
    let mapping := dict_set mapping (u8 "作成年_西暦")
                     (PStr (str_of_N (dt_year dt) ++ u8 "年")) in
    let mapping := dict_set mapping (u8 "作成月")
                     (PStr (str_of_N (dt_month dt) ++ u8 "月")) in
    let mapping := dict_set mapping (u8 "作成日")
                     (PStr (str_of_N (dt_day dt) ++ u8 "日")) in
    let mapping := dict_set mapping (u8 "作成年月日") (PStr (strftime_ymd_kanji dt)) in
    let mapping := dict_set mapping (u8 "日付") (PStr (strftime_ymd_kanji dt)) in
    let mapping := dict_set mapping (u8 "実施日") (PStr (strftime_ymd_kanji dt)) in
    dict_set mapping (u8 "開催日（令和〇年〇月〇日）")
      (PStr (u8 "令和" ++ str_of_Z (Z.of_N (dt_year dt) - 2018) ++ u8 "年" ++
             str_of_N (dt_month dt) ++ u8 "月" ++
             str_of_N (dt_day dt) ++ u8 "日"))
  | None => mapping
  end.

(** The block between PRIORITY OVERRIDE START and END. *)
Definition priority_override (req : request) (mapping : pydict pyval)
    : pydict pyval :=
  let mapping :=
    when_provided (user_name req)
      (fun x m => dict_set (dict_set m (u8 "利用者氏名") (PStr x)) (u8 "氏名") (PStr x))
      mapping in
  let mapping :=
    when_provided (user_name_furigana req)
      (fun x m => dict_set (dict_set m (u8 "利用者氏名_ふりがな") (PStr x))
                    (u8 "氏名のふりがな") (PStr x))
      mapping in
  let mapping :=
    when_provided (staff_name req) (fun x m => dict_set m (u8 "作成者") (PStr x))
      mapping in
  let mapping := when_provided (date req) date_override mapping in
  let mapping :=
    when_provided (cm_location req) (fun x m => dict_set m (u8 "開催場所") (PStr x))
      mapping in
  let mapping :=
    when_provided (cm_time req) (fun x m => dict_set m (u8 "開催時間") (PStr x))
      mapping in
  let mapping :=
    when_provided (cm_attendees req) (fun x m => dict_set m (u8 "会議出席者") (PStr x))
      mapping in
  let mapping :=
    when_provided (user_name req) (fun x m => dict_set m (u8 "利用者様") (PStr x))
      mapping in
  when_provided (cm_service_manager req)
    (fun x m => dict_set m (u8 "サービス管理責任者") (PStr x)) mapping.

End Overrides.

(* ===================================================================== *)
(** ** openpyxl: alignment, cells, worksheets, workbooks *)
(* ===================================================================== *)

Inductive halign :=
| HGeneral | HLeft | HCenter | HRight | HFill | HJustify
| HCenterContinuous | HDistributed.

Inductive valign := VTop | VCenter | VBottom | VJustify | VDistributed.

(** [openpyxl.styles.Alignment] *)
Record Alignment := {
  horizontal : option halign;
  vertical : option valign;
  textRotation : Z;
  wrapText : option bool;
  shrinkToFit : option bool;
  indent : Z;
  relativeIndent : Z;
  justifyLastLine : option bool;
  readingOrder : Z
}.

(** [Alignment(horizontal=, vertical=, text_rotation=, wrap_text=,
    shrink_to_fit=, indent=)]: a keyword that is [None] or left out keeps
    the default of the attribute. *)
Definition Alignment_init (h : option halign) (v : option valign)
    (text_rotation : option Z) (wrap_text shrink_to_fit : option bool)
    (ind : Z) : Alignment :=
  {| horizontal := h; vertical := v;
     textRotation := default 0%Z text_rotation;
     wrapText := wrap_text; shrinkToFit := shrink_to_fit;
     indent := ind; relativeIndent := 0; justifyLastLine := None;
     readingOrder := 0 |}.

Definition default_alignment : Alignment :=
  Alignment_init None None None None None 0.

(** A cell: its value, its alignment, and whether it is a [MergedCell] (a
    cell of a merged range other than the top-left one, whose value cannot
    be assigned). *)
Record cell := {
  c_value : pyval;
  c_alignment : Alignment;
  c_merged : bool
}.

Definition empty_cell : cell :=
  {| c_value := PNone; c_alignment := default_alignment; c_merged := false |}.

(** A worksheet: its cells by (row, column); a coordinate that was never
    touched reads as [empty_cell]. *)
Abbreviation worksheet := (gmap (N * N) cell).

Definition get_cell (ws : worksheet) (rc : N * N) : cell :=
  default empty_cell (ws !! rc).

Definition letter_index (c : N) : option N :=
  if in_range 65 90 c then Some (c - 64)
  else if in_range 97 122 c then Some (c - 96)
  else None.

Fixpoint span_letters (s : pystr) : list N * pystr :=
  match s with
  | [] => ([], [])
  | c :: r =>
    match letter_index c with
    | Some i => (i :: fst (span_letters r), snd (span_letters r))
    | None => ([], s)
    end
  end.

(** [column_index_from_string] *)
Definition column_index (ls : list N) : N :=
  fold_left (fun acc i => acc * 26 + i) ls 0.

Definition drop_dollar (s : pystr) : pystr :=
  match s with
  | 36 :: r => r
  | _ => s
  end.

(** The anchor [$] of a regular expression also matches before a newline
    that ends the string. *)
Definition chomp (s : pystr) : pystr :=
  match rev s with
  | 10 :: r => rev r
  | _ => s
  end.

Definition illegal_character (c : N) : bool :=
  in_range 0 8 c || in_range 11 12 c || in_range 14 31 c.

(** [Cell.check_string]: cut at 32767 characters, refuse control
    characters. *)
Definition check_string (s : pystr) : pyresult pystr :=
  let s := if len s <=? 32767 then s else take (N.to_nat 32767) s in
  if existsb illegal_character s then Raise IllegalCharacterError else Ok s.

(** The value a cell stores for an assigned value ([Cell._bind_value]). *)
Definition bind_value (v : pyval) : pyresult pyval :=
  match v with
  | PStr s => s' ← check_string s; Ok (PStr s')
  | _ => Ok v
  end.

Section Worksheet.
Context {U : UnicodeData}.

(** The single cell that the key of [ws[key]] denotes, if it denotes one:
    [[$]?[A-Za-z]{1,3}[$]?\d+] with a row between 1 and 1048576
    ([range_boundaries], [Worksheet._get_cell]). *)
Definition cell_of_key (key : pystr) : option (N * N) :=
  let s := drop_dollar (chomp key) in
  let ls := fst (span_letters s) in
  if (1 <=? len ls) && (len ls <=? 3) then
    match drop_dollar (snd (span_letters s)) with
    | [] => None
    | ds =>
      match int_of_digits 0 ds with
      | Some row =>
        if (0 <? row) && (row <? 1048577)
        then Some (row, column_index ls) else None
      | None => None
      end
    end
  else None.

(** [ws[key]] where a cell is expected.  For every other key openpyxl
    raises ([ValueError], [IndexError]) or returns a tuple of cells, on
    which the attribute access that follows raises [AttributeError]; the
    model raises [ValueError] for all of them. *)
Definition ws_getitem (key : pystr) : pyresult (N * N) :=
  match cell_of_key key with
  | Some rc => Ok rc
  | None => Raise ValueError
  end.

(** [ws[key] = value], that is [ws[key].value = value]. *)
Definition ws_setitem (ws : worksheet) (key : pystr) (value : pyval)
    : pyresult worksheet :=
  rc ← ws_getitem key;
  if c_merged (get_cell ws rc) then Raise AttributeError
  else
    v ← bind_value value;
    Ok (<[rc := {| c_value := v;
                   c_alignment := c_alignment (get_cell ws rc);
                   c_merged := false |}]> ws).

(** [ws[key].alignment = a] *)
Definition ws_set_alignment (ws : worksheet) (key : pystr) (a : Alignment)
    : pyresult worksheet :=
  rc ← ws_getitem key;
  Ok (<[rc := {| c_value := c_value (get_cell ws rc);
                 c_alignment := a;
                 c_merged := c_merged (get_cell ws rc) |}]> ws).

(** [ws[key].alignment] *)
Definition ws_alignment (ws : worksheet) (key : pystr) : pyresult Alignment :=
  rc ← ws_getitem key; Ok (c_alignment (get_cell ws rc)).

End Worksheet.

(** A workbook: its sheets by title and the title of the active sheet. *)
Record workbook := {
  wb_sheets : gmap pystr worksheet;
  wb_active : pystr
}.

(** [name in wb.sheetnames] *)
Definition has_sheet (wb : workbook) (name : pystr) : bool :=
  bool_decide (is_Some (wb_sheets wb !! name)).

(** The sheet with a title, for a title of the workbook. *)
Definition sheet_of (wb : workbook) (title : pystr) : worksheet :=
  default ∅ (wb_sheets wb !! title).

Definition set_sheet (wb : workbook) (title : pystr) (ws : worksheet)
    : workbook :=
  {| wb_sheets := <[title := ws]> (wb_sheets wb); wb_active := wb_active wb |}.

(** The cell at a coordinate of a sheet of the workbook. *)
Definition cell_at (wb : workbook) (title : pystr) (rc : N * N) : cell :=
  get_cell (sheet_of wb title) rc.

(** [wb.active]: the title of the active sheet; [IndexError] when the
    workbook has no such sheet. *)
Definition active (wb : workbook) : pyresult pystr :=
  if has_sheet wb (wb_active wb) then Ok (wb_active wb) else Raise IndexError.

(* ===================================================================== *)
(** ** Paths, identifiers, the environment of a request *)
(* ===================================================================== *)

Definition TEMP_DIR : pystr := u8 "temp".
Definition OUTPUT_DIR : pystr := u8 "outputs".

Definition nl : pystr := [10].

(** [s.endswith(suffix)] *)
Definition endswith (s suffix : pystr) : bool :=
  startswith (rev s) (rev suffix).

(** [os.path.join(a, b)] on POSIX. *)
Definition os_path_join (a b : pystr) : pystr :=
  if startswith b (u8 "/") then b
  else if pystr_eqb a [] || endswith a (u8 "/") then a ++ b
  else a ++ u8 "/" ++ b.

(** [os.path.basename(p)] on POSIX. *)
Definition os_path_basename (p : pystr) : pystr :=
  match rev (split 47 p) with
  | x :: _ => x
  | [] => []
  end.

Definition hex_char (d : N) : N := if d <? 10 then 48 + d else 87 + d.

Fixpoint hex_digits (k : nat) (u : N) : pystr :=
  match k with
  | O => []
  | S k' => hex_digits k' (u / 16) ++ [hex_char (u mod 16)]
  end.

(** [u.hex] of a UUID [u], a 128-bit number. *)
Definition uuid_hex (u : N) : pystr := hex_digits 32 u.

(** [str(u)] of a UUID. *)
Definition uuid_str (u : N) : pystr :=
  let h := uuid_hex u in
  take 8 h ++ u8 "-" ++ take 4 (drop 8 h) ++ u8 "-" ++ take 4 (drop 12 h)
    ++ u8 "-" ++ take 4 (drop 16 h) ++ u8 "-" ++ drop 20 h.

(** An entry of [mapping_config.json] (the context and style texts only
    feed the prompt and are left to [call_gemini]). *)
Record template := {
  t_name : pystr;
  t_filename : pystr;
  t_sheet_name : option pystr;
  t_mapping : gmap pystr pystr
}.

(** What a request sees of the process and of the outside world: the loaded
    configuration, the file system, the random UUIDs it draws (in the order
    of the calls of [uuid.uuid4]), the clock, and the two functions that
    read outside data.  [call_gemini] stands for the function of that name:
    it returns the dictionary decoded from the model's answer or raises. *)
Record world := {
  TEMPLATE_CONFIG : gmap pystr template;
  path_exists : pystr -> bool;
  load_workbook : pystr -> pyresult workbook;
  can_write : pystr -> bool;
  uuid4 : nat -> N;
  now : datetime;
  call_gemini : template -> pystr -> list pystr -> option pystr
                -> pyresult (pydict pyval);
  read_excel_monitoring_data : pystr -> pystr
}.

(* ===================================================================== *)
(** ** [fill_excel] *)
(* ===================================================================== *)

(** What [fill_excel] leaves behind: the name it returns, the path and the
    content of the workbook it saved, and the lines it printed for the
    cells it could not fill (cell coordinate and label). *)
Record fill_result := {
  fr_filename : pystr;
  fr_path : pystr;
  fr_workbook : workbook;
  fr_log : list (pystr * pystr)
}.

(** [output_name] if it is given and not empty, a name with a fresh UUID
    otherwise. *)
Definition output_filename (output_name : option pystr) (uuid : N) : pystr :=
  match output_name with
  | Some (c :: s) => c :: s
  | _ => u8 "processed_" ++ uuid_hex uuid ++ u8 ".xlsx"
  end.

Section FillExcel.
Context {U : UnicodeData}.

(** Target sheet and cell coordinate of a configured value: the default
    sheet and the value itself, unless the value is ["Sheet!Cell"] for a
    sheet of the workbook. *)
Definition resolve_target (wb : workbook) (default_sheet config_value : pystr)
    : pystr * pystr :=
  if existsb (N.eqb 33) config_value then
    match split 33 config_value with
    | [s_name; c_coord] =>
      if has_sheet wb s_name then (s_name, c_coord)
      else (default_sheet, config_value)
    | _ => (default_sheet, config_value)
    end
  else (default_sheet, config_value).

(** [current_align = ws[coord].alignment; ws[coord].alignment = f(current_align)]
    on the target sheet: the workbook reached and the exception raised. *)
Definition restyle (wb : workbook) (target cell_coord : pystr)
    (f : Alignment -> Alignment) : workbook * option pyexn :=
  match ws_alignment (sheet_of wb target) cell_coord with
  | Raise e => (wb, Some e)
  | Ok current_align =>
    match ws_set_alignment (sheet_of wb target) cell_coord (f current_align) with
    | Raise e => (wb, Some e)
    | Ok ws => (set_sheet wb target ws, None)
    end
  end.

Definition vertical_align (current_align : Alignment) : Alignment :=
  Alignment_init (Some HCenter) (Some VCenter) (Some 255%Z) (Some true)
    (shrinkToFit current_align) (indent current_align).

Definition wrap_align (current_align : Alignment) : Alignment :=
  Alignment_init
    (Some (default HLeft (horizontal current_align)))
    (Some (default VTop (vertical current_align)))
    None (Some true) (Some false) (indent current_align).

(** The body of the [try] for one field: the workbook when the body is
    left, and the exception that left it, if one did. *)
Definition write_value (wb : workbook) (target cell_coord : pystr)
    (value : pyval) : workbook * option pyexn :=
  match value with
  | PNone => (wb, None)
  | _ =>
    match ws_setitem (sheet_of wb target) cell_coord value with
    | Raise e => (wb, Some e)
    | Ok ws =>
      let wb := set_sheet wb target ws in
      match value with
      | PStr s =>
        if startswith s (u8 "【") && (len s <? 10)
        then restyle wb target cell_coord vertical_align
        else if 50 <? len s
        then restyle wb target cell_coord wrap_align
        else (wb, None)
      | _ => (wb, None)
      end
    end
  end.

(** One turn of [for label, value in mapping.items()]. *)
Definition fill_item (config_mapping : gmap pystr pystr) (default_sheet : pystr)
    (st : workbook * list (pystr * pystr)) (item : pystr * pyval)
    : workbook * list (pystr * pystr) :=
  match config_mapping !! fst item with
  | Some config_value =>
    let tc := resolve_target (fst st) default_sheet config_value in
    match write_value (fst st) (fst tc) (snd tc) (snd item) with
    | (wb, None) => (wb, snd st)
    | (wb, Some e) => (wb, snd st ++ [(snd tc, fst item)])
    end
  | None => st
  end.

(** The default sheet: the sheet named by the popped ["_sheet_name"] when
    that is a non-empty title of the workbook, the active sheet otherwise. *)
Definition select_sheet (wb : workbook) (default_sheet_name : option pyval)
    : pyresult pystr :=
  match default_sheet_name with
  | Some (PStr (c :: s)) =>
    if has_sheet wb (c :: s) then Ok (c :: s) else active wb
  | _ => active wb
  end.

(** [fill_excel(template_path, mapping, config_mapping, output_name)];
    [uuid] is the UUID drawn when no output name is given. *)
Definition fill_excel (w : world) (uuid : N) (template_path : pystr)
    (mapping : pydict pyval) (config_mapping : gmap pystr pystr)
    (output_name : option pystr) : pyresult fill_result :=
  wb ← load_workbook w template_path;
  let default_sheet_name := dict_get mapping (u8 "_sheet_name") in
  let mapping := dict_remove mapping (u8 "_sheet_name") in
  default_sheet ← select_sheet wb default_sheet_name;
  let st := fold_left (fill_item config_mapping default_sheet) mapping (wb, []) in
  let output_path := os_path_join OUTPUT_DIR (output_filename output_name uuid) in
  if can_write w output_path
  then Ok {| fr_filename := output_filename output_name uuid;
             fr_path := output_path;
             fr_workbook := fst st; fr_log := snd st |}
  else Raise OSError.

End FillExcel.

(* ===================================================================== *)
(** ** [process_data], the handler of [POST /process] *)
(* ===================================================================== *)

(** [if x: manual_info_list.append(label + x)] *)
Definition info_line (label : pystr) (o : option pystr) : list pystr :=
  match o with
  | Some (c :: s) => [label ++ c :: s]
  | _ => []
  end.

Definition manual_info_list (req : request) : list pystr :=
  info_line (u8 "利用者名 (User Name): ") (user_name req) ++
  info_line (u8 "作成担当者 (Staff Name): ") (staff_name req) ++
  info_line (u8 "日付 (Date): ") (date req) ++
  info_line (u8 "開催場所 (Location): ") (location req) ++
  info_line (u8 "時間 (Time): ") (time req) ++
  info_line (u8 "回数 (Count): ") (count req) ++
  info_line (u8 "次回予定 (Next Date): ") (next_date req) ++
  info_line (u8 "サービス管理責任者 (Service Manager): ") (cm_service_manager req) ++
  info_line (u8 "開催場所 (Location): ") (cm_location req) ++
  info_line (u8 "開催時間 (Time): ") (cm_time req) ++
  info_line (u8 "会議出席者 (Attendees): ") (cm_attendees req).

(** [sep.join(l)] *)
Fixpoint join (sep : pystr) (l : list pystr) : pystr :=
  match l with
  | [] => []
  | [x] => x
  | x :: l' => x ++ sep ++ join sep l'
  end.

Definition manual_info_text (req : request) : pystr :=
  match manual_info_list req with
  | [] => []
  | l =>
    nl ++ nl ++ u8 "【基本情報 (Basic Information provided by User)】" ++ nl ++
    join nl l ++ nl ++
    u8 "IMPORTANT: Please use the above 'Basic Information' to fill the corresponding fields in the output JSON." ++ nl
  end.

Definition full_text_input (req : request) : pystr :=
  default [] (text_input req) ++ manual_info_text req.

(** The path of the template workbook, or the 500 of a missing file. *)
Definition template_source_path (w : world) (selected_template : template)
    : pyresult pystr :=
  if path_exists w (t_filename selected_template)
  then Ok (t_filename selected_template)
  else
    let alt_path :=
      os_path_join (u8 "template") (os_path_basename (t_filename selected_template)) in
    if path_exists w alt_path then Ok alt_path
    else Raise (HTTPException 500
                  (TemplateFileNotFound (t_filename selected_template))).

(** The loop that saves the uploaded files: the paths written and the
    number of UUIDs drawn; [OSError] when a file cannot be written. *)
Fixpoint save_uploads (w : world) (fs : list upload_file) (n : nat)
    (file_paths : list pystr) : pyresult (list pystr * nat) :=
  match fs with
  | [] => Ok (file_paths, n)
  | file :: fs' =>
    match uf_filename file with
    | Some (c :: s) =>
      let file_path :=
        os_path_join TEMP_DIR (uuid_str (uuid4 w n) ++ u8 "_" ++ c :: s) in
      if can_write w file_path
      then save_uploads w fs' (S n) (file_paths ++ [file_path])
      else Raise OSError
    | _ => save_uploads w fs' n file_paths
    end
  end.

(** The loop over the saved files for the template ["monitoring_final"]. *)
Fixpoint scan_interim (w : world) (file_paths : list pystr)
    (interim_data : option pystr) : option pystr :=
  match file_paths with
  | [] => interim_data
  | fp :: rest =>
    if endswith fp (u8 ".xlsx") || endswith fp (u8 ".xls")
    then match read_excel_monitoring_data w fp with
         | [] => scan_interim w rest (Some [])
         | d => Some d
         end
    else scan_interim w rest interim_data
  end.

(** What the handler returns, and the files it asks to delete later. *)
Record response := {
  filename : pystr;
  saved : fill_result;
  cleanup : list pystr
}.

Section ProcessData.
Context {U : UnicodeData}.

(** The body of the first [try]: save the files, refuse an empty input,
    call the model, apply the overrides. *)
Definition extract_stage (w : world) (req : request) (selected_template : template)
    : pyresult (pydict pyval * list pystr * nat) :=
  fp ← match files req with
       | Some (f :: fs) => save_uploads w (f :: fs) 0 []
       | _ => Ok ([], 0%nat)
       end;
  if pystr_eqb (full_text_input req) [] && bool_decide (fst fp = [])
  then Raise (HTTPException 400 NoInputProvided)
  else
    let interim_data :=
      if pystr_eqb (template_id req) (u8 "monitoring_final")
      then scan_interim w (fst fp) None else None in
    mapping ← call_gemini w selected_template (full_text_input req) (fst fp)
                interim_data;
    Ok (priority_override req mapping, fst fp, snd fp).

Definition possible_keys : list pystr :=
  [u8 "氏名"; u8 "利用者名"; u8 "利用者様"; u8 "利用者氏名"].

(** The user name that goes into the file name. *)
Definition user_name_val (mapping : pydict pyval) : pyval :=
  let v :=
    match find (fun key => match dict_get mapping key with
                           | Some x => pyval_truthy x
                           | None => false
                           end) possible_keys with
    | Some key => default PNone (dict_get mapping key)
    | None => PStr (u8 "名称未設定")
    end in
  if bool_decide (v = PStr (u8 "名称未設定"))
     && dict_mem mapping (u8 "氏名のふりがな")
  then default PNone (dict_get mapping (u8 "氏名のふりがな"))
  else v.

(** ["".join([c for c in v if c.isalnum() or c in (' ', '　', '_', '-')])];
    iterating over a value that is not a string raises [TypeError]. *)
Definition safe_user_name (v : pyval) : pyresult pystr :=
  match v with
  | PStr s =>
    Ok (List.filter
          (fun c => isalnum c || existsb (N.eqb c) [32; 12288; 95; 45]) s)
  | _ => Raise TypeError
  end.

Definition custom_filename (w : world) (selected_template : template)
    (safe : pystr) : pystr :=
  strftime_ymd_dots (now w) ++ u8 "_" ++ t_name selected_template ++
  u8 "【" ++ safe ++ u8 "】.xlsx".

(** [if mapping: mapping['_sheet_name'] = selected_template.get('sheet_name')] *)
Definition with_sheet_name (selected_template : template)
    (mapping : pydict pyval) : pydict pyval :=
  match mapping with
  | [] => mapping
  | _ => dict_set mapping (u8 "_sheet_name")
           (match t_sheet_name selected_template with
            | Some s => PStr s
            | None => PNone
            end)
  end.

(** The body of the second [try]. *)
Definition excel_stage (w : world) (n : nat) (selected_template : template)
    (path : pystr) (mapping : pydict pyval) : pyresult fill_result :=
  let mapping := with_sheet_name selected_template mapping in
  safe ← safe_user_name (user_name_val mapping);
  fill_excel w (uuid4 w n) path mapping (t_mapping selected_template)
    (Some (custom_filename w selected_template safe)).

(** [process_data]: the response, or the [HTTPException] it raises. *)
Definition process_data (w : world) (req : request) : pyresult response :=
  match TEMPLATE_CONFIG w !! template_id req with
  | None => Raise (HTTPException 400 InvalidTemplateID)
  | Some selected_template =>
    path ← template_source_path w selected_template;
    match extract_stage w req selected_template with
    | Raise e => Raise (HTTPException 500 AIProcessingFailed)
    | Ok (mapping, file_paths, n) =>
      match excel_stage w n selected_template path mapping with
      | Raise e => Raise (HTTPException 500 ExcelGenerationFailed)
      | Ok r => Ok {| filename := fr_filename r; saved := r;
                      cleanup := file_paths |}
      end
    end
  end.

End ProcessData.

(** The HTTP status the framework answers with. *)
Definition status_of {A} (r : pyresult A) : Z :=
  match r with
  | Ok _ => 200
  | Raise (HTTPException status_code _) => status_code
  | Raise _ => 500
  end.

(* ===================================================================== *)
(** ** Notions used by the statements *)
(* ===================================================================== *)

(** A step of the resolver that leaves the entry of a key alone. *)
Definition keeps (k : pystr) (f : pydict pyval -> pydict pyval) : Prop :=
  forall m, dict_get (f m) k = dict_get m k.

(** The request carries no uploaded file: no [files] part, or only parts
    without a file name (which the handler skips). *)
Definition no_uploads (req : request) : bool :=
  match files req with
  | Some fs => forallb (fun f => negb (truthy (uf_filename f))) fs
  | None => true
  end.

(** The keys that the date override assigns. *)
Definition date_keys : list pystr :=
  [u8 "作成年_西暦"; u8 "作成月"; u8 "作成日"; u8 "作成年月日"; u8 "日付";
   u8 "実施日"; u8 "開催日（令和〇年〇月〇日）"].

(** The request without its date field. *)
Definition without_date (req : request) : request :=
  {| template_id := template_id req; text_input := text_input req;
     user_name := user_name req;
     user_name_furigana := user_name_furigana req;
     staff_name := staff_name req; date := None;
     location := location req; time := time req; count := count req;
     next_date := next_date req; cm_location := cm_location req;
     cm_time := cm_time req; cm_attendees := cm_attendees req;
     cm_service_manager := cm_service_manager req; files := files req |}.

(* ===================================================================== *)
(** ** A small installation, for the examples *)
(* ===================================================================== *)

Definition right_aligned : Alignment :=
  {| horizontal := Some HRight; vertical := None; textRotation := 0;
     wrapText := None; shrinkToFit := Some true; indent := 2;
     relativeIndent := 0; justifyLastLine := None; readingOrder := 0 |}.

(** A sheet with a default text in A1, a merged range A2:B2 (so that B2 is
    a merged cell) and a number in C1. *)
Definition ex_sheet : worksheet :=
  <[(1, 1) := {| c_value := PStr (u8 "default"); c_alignment := right_aligned;
                 c_merged := false |}]>
  (<[(2, 2) := {| c_value := PNone; c_alignment := default_alignment;
                  c_merged := true |}]>
  (<[(1, 3) := {| c_value := PInt 7; c_alignment := default_alignment;
                  c_merged := false |}]> ∅)).

Definition ex_workbook : workbook :=
  {| wb_sheets := <[u8 "Sheet1" := ex_sheet]> (<[u8 "Extra" := ∅]> ∅);
     wb_active := u8 "Sheet1" |}.

Definition ex_mapping : gmap pystr pystr :=
  <[u8 "氏名" := u8 "A1"]>
  (<[u8 "備考" := u8 "B2"]>
  (<[u8 "日付" := u8 "Missing!C3"]>
  (<[u8 "所属" := u8 "Extra!A2"]> ∅))).

Definition ex_template : template :=
  {| t_name := u8 "Report"; t_filename := u8 "template/report.xlsx";
     t_sheet_name := Some (u8 "Sheet1"); t_mapping := ex_mapping |}.

(** A process whose random UUIDs start at [seed] and whose model answers
    with [answer]. *)
Definition ex_world (seed : N) (answer : pydict pyval) : world :=
  {| TEMPLATE_CONFIG := <[u8 "report" := ex_template]> ∅;
     path_exists := fun p => pystr_eqb p (u8 "template/report.xlsx");
     load_workbook := fun p =>
       if pystr_eqb p (u8 "template/report.xlsx") then Ok ex_workbook
       else Raise OSError;
     can_write := fun _ => true;
     uuid4 := fun n => 2 * N.of_nat n + seed;
     now := {| dt_year := 2026; dt_month := 5; dt_day := 20 |};
     call_gemini := fun _ _ _ _ => Ok answer;
     read_excel_monitoring_data := fun _ => [] |}.

(** An answer of the model: four fields of the template and one key the
    template does not have. *)
Definition ex_answer : pydict pyval :=
  [(u8 "氏名", PStr (u8 "A")); (u8 "備考", PStr (u8 "note"));
   (u8 "日付", PStr (u8 "someday")); (u8 "所属", PStr (u8 "team"));
   (u8 "趣味", PStr (u8 "chess"))].

(** A request that names the template and carries nothing else. *)
Definition ex_request_empty : request :=
  {| template_id := u8 "report"; text_input := None; user_name := None;
     user_name_furigana := None; staff_name := None; date := None;
     location := None; time := None; count := None; next_date := None;
     cm_location := None; cm_time := None; cm_attendees := None;
     cm_service_manager := None; files := None |}.

(** The request before, with a date that no calendar has. *)
Definition ex_request_bad_date : request :=
  {| template_id := u8 "report"; text_input := Some (u8 "visit notes");
     user_name := None; user_name_furigana := None; staff_name := None;
     date := Some (u8 "2026-02-30");
     location := None; time := None; count := None; next_date := None;
     cm_location := None; cm_time := None; cm_attendees := None;
     cm_service_manager := None; files := None |}.

(** The mapping that the handler passes to [fill_excel] for [ex_answer]. *)
Definition ex_fill_mapping : pydict pyval :=
  ex_answer ++ [(u8 "_sheet_name", PStr (u8 "Sheet1"))].

(** The first sheet after ["【達成】"] went into A1. *)
Definition ex_sheet_tagged : worksheet :=
  <[(1, 1) := {| c_value := PStr (u8 "【達成】"); c_alignment := right_aligned;
                 c_merged := false |}]> ex_sheet.

(** A request with a text, a user name, a date and one uploaded file. *)
Definition ex_request : request :=
  {| template_id := u8 "report"; text_input := Some (u8 "visit notes");
     user_name := Some (u8 "B"); user_name_furigana := None;
     staff_name := None; date := Some (u8 "2026-05-20");
     location := None; time := None; count := None; next_date := None;
     cm_location := None; cm_time := None; cm_attendees := None;
     cm_service_manager := None;
     files := Some [{| uf_filename := Some (u8 "a.mp3") |}] |}.

(* ===================================================================== *)
(** ** More of [main.py]: notions and examples for the further properties *)
(* ===================================================================== *)

(** The keys that the override block of [process_data] can assign. *)
Definition override_keys : list pystr :=
  [u8 "利用者氏名"; u8 "氏名"; u8 "利用者氏名_ふりがな"; u8 "氏名のふりがな";
   u8 "作成者"; u8 "作成年_西暦"; u8 "作成月"; u8 "作成日"; u8 "作成年月日";
   u8 "日付"; u8 "実施日"; u8 "開催日（令和〇年〇月〇日）"; u8 "開催場所";
   u8 "開催時間"; u8 "会議出席者"; u8 "利用者様"; u8 "サービス管理責任者"].

(** A step of the resolver that removes no key. *)
Definition grows (f : pydict pyval -> pydict pyval) : Prop :=
  forall m k, dict_mem m k = true -> dict_mem (f m) k = true.

(** A form field that is absent, empty, or made of white space only. *)
Definition blank (o : option pystr) : Prop :=
  match o with
  | Some x => strip x = []
  | None => True
  end.

(** A form whose fields are all absent or white space. *)
Definition ex_request_blank : request :=
  {| template_id := u8 "report"; text_input := Some (u8 "visit notes");
     user_name := Some (u8 "  "); user_name_furigana := Some [];
     staff_name := None; date := Some (u8 " "); location := None;
     time := None; count := None; next_date := None;
     cm_location := Some [12288]; cm_time := None; cm_attendees := None;
     cm_service_manager := Some [9; 10]; files := None |}.

(** A form for a case meeting: reading of the name, staff, place, time,
    attendees and service manager, and a date before the era began. *)
Definition ex_request_meeting : request :=
  {| template_id := u8 "report"; text_input := None;
     user_name := Some (u8 "   "); user_name_furigana := Some (u8 "やまだ");
     staff_name := Some (u8 "Sato"); date := Some (u8 "2017-3-9");
     location := Some (u8 "Room 1"); time := None; count := None;
     next_date := None; cm_location := Some (u8 "Office");
     cm_time := Some (u8 "10:00"); cm_attendees := Some (u8 "A, B");
     cm_service_manager := Some (u8 "Ito"); files := None |}.

(* ===================================================================== *)
(** * Properties *)
(* ===================================================================== *)

(** Two literals that differ. *)
Ltac literals_differ :=
  let H := fresh in intro H; vm_compute in H; discriminate H.

(** ** Dictionaries *)

Section DictFacts.
Context {V : Type}.
Implicit Types (d : pydict V) (k : pystr) (v : V).

Lemma pystr_eqb_true a b : pystr_eqb a b = true <-> a = b.
Proof. unfold pystr_eqb. apply bool_decide_eq_true. Qed.

Lemma pystr_eqb_false a b : pystr_eqb a b = false <-> a <> b.
Proof. unfold pystr_eqb. apply bool_decide_eq_false. Qed.

Lemma pystr_eqb_refl a : pystr_eqb a a = true.
Proof. by apply pystr_eqb_true. Qed.

Lemma dict_get_set_eq d k v : dict_get (dict_set d k v) k = Some v.
Proof.
  induction d as [|[k' v'] d IH]; simpl.
  - by rewrite pystr_eqb_refl.
  - destruct (pystr_eqb k' k) eqn:E; simpl; rewrite E; [done | apply IH].
Qed.

Lemma dict_get_set_ne d k k' v :
  k <> k' -> dict_get (dict_set d k v) k' = dict_get d k'.
Proof.
  intros Hne. induction d as [|[k0 v0] d IH]; simpl.
  - by apply pystr_eqb_false in Hne as ->.
  - destruct (pystr_eqb k0 k) eqn:E; simpl.
    + apply pystr_eqb_true in E as ->.
      by apply pystr_eqb_false in Hne as ->.
    + by rewrite IH.
Qed.

End DictFacts.

(** ** The override resolver *)

Lemma strip_nil : strip [] = [].
Proof. reflexivity. Qed.

(** The guard [x and x.strip()] holds exactly when [x] is not empty after
    trimming. *)
Lemma provided_strip x : provided (Some x) = true <-> strip x <> [].
Proof.
  unfold provided. destruct x as [|c x].
  - split; [discriminate | intros H; by destruct H].
  - rewrite negb_true_iff. apply pystr_eqb_false.
Qed.

Lemma keeps_set k k' v : k' <> k -> keeps k (fun m => dict_set m k' v).
Proof. intros Hne m. by apply dict_get_set_ne. Qed.

Lemma keeps_set2 k k1 k2 v1 v2 :
  k1 <> k -> k2 <> k ->
  keeps k (fun m => dict_set (dict_set m k1 v1) k2 v2).
Proof. intros H1 H2 m. by rewrite !dict_get_set_ne. Qed.

Lemma keeps_when_provided k o body :
  (forall x, keeps k (body x)) -> keeps k (when_provided o body).
Proof.
  intros Hb m. unfold when_provided.
  destruct o as [x|]; [|done]. destruct (provided (Some x)); [apply Hb | done].
Qed.

Lemma when_provided_true x body m :
  provided (Some x) = true -> when_provided (Some x) body m = body x m.
Proof. intros H. unfold when_provided. by rewrite H. Qed.

Section OverrideFacts.
Context {U : UnicodeData}.

Lemma keeps_date_override k d :
  k ∉ date_keys -> keeps k (date_override d).
Proof.
  intros Hk m. unfold date_override. destruct (strptime d) as [dt|]; [|done].
  rewrite !dict_get_set_ne; [done | intros <-; apply Hk; unfold date_keys; set_solver ..].
Qed.

(** The date override of a date that [strptime] refuses does nothing. *)
Lemma date_override_malformed d m : strptime d = None -> date_override d m = m.
Proof. intros H. unfold date_override. by rewrite H. Qed.

Lemma when_provided_malformed d m :
  strptime d = None -> when_provided (Some d) date_override m = m.
Proof.
  intros H. unfold when_provided.
  rewrite (date_override_malformed _ _ H). by destruct (provided (Some d)).
Qed.

End OverrideFacts.

Lemma when_provided_None body m : when_provided None body m = m.
Proof. reflexivity. Qed.

Ltac not_date_key :=
  unfold date_keys;
  repeat (apply not_elem_of_cons; split; [literals_differ|]);
  apply not_elem_of_nil.

(** Look through one [if x and x.strip()] block that assigns other keys. *)
Ltac peel :=
  rewrite keeps_when_provided;
  [ | intros ?;
      first [ apply keeps_set; literals_differ
            | apply keeps_set2; literals_differ
            | apply keeps_date_override; not_date_key ] ].

Section OverrideClaims.
Context {U : UnicodeData}.

(** C4. For every extracted mapping and every manual [user_name] that is
    not empty after trimming, the resolved mapping has the manual
    [user_name] under the three keys ["氏名"], ["利用者氏名"] and ["利用者様"],
    whatever the extracted mapping held there. *)
Theorem manual_user_name_wins (req : request) (mapping : pydict pyval) (x : pystr) :
  user_name req = Some x ->
  strip x <> [] ->
  dict_get (priority_override req mapping) (u8 "氏名") = Some (PStr x)
  /\ dict_get (priority_override req mapping) (u8 "利用者氏名") = Some (PStr x)
  /\ dict_get (priority_override req mapping) (u8 "利用者様") = Some (PStr x).
Proof.
  intros Hu Hx. apply provided_strip in Hx.
  unfold priority_override; cbv zeta. rewrite Hu.
  split; [|split].
  - do 8 peel. rewrite (when_provided_true _ _ _ Hx).
    apply dict_get_set_eq.
  - do 8 peel. rewrite (when_provided_true _ _ _ Hx).
    rewrite dict_get_set_ne by literals_differ. apply dict_get_set_eq.
  - peel. rewrite (when_provided_true _ _ _ Hx). apply dict_get_set_eq.
Qed.

(** The date of the example is read as 20 May 2026, whatever digits the
    interpreter knows beyond ASCII. *)
Lemma strptime_example :
  strptime (u8 "2026-05-20") = Some {| dt_year := 2026; dt_month := 5; dt_day := 20 |}.
Proof. reflexivity. Qed.

(** The parse of the code is the one of [strptime]: a month or a day of
    one digit is read too, and a day that the month does not have is
    refused. *)
Remark strptime_one_digit_month :
  strptime (u8 "2026-5-20") = Some {| dt_year := 2026; dt_month := 5; dt_day := 20 |}
  /\ strptime (u8 "2026-02-30") = None
  /\ strptime (u8 "20260520") = None
  /\ strptime (u8 " 2026-05-20") = None.
Proof. repeat split. Qed.

(** C5. With the manual date ["2026-05-20"] the resolved mapping holds the
    seven derived keys: the era key holds ["令和8年5月20日"], which contains
    ["8年5月20日"]; 作成年月日, 日付 and 実施日 hold ["2026年05月20日"]; and the
    year, month and day tokens hold ["2026年"], ["5月"] and ["20日"]. *)
Theorem date_example_resolved (req : request) (mapping : pydict pyval) :
  date req = Some (u8 "2026-05-20") ->
  let m := priority_override req mapping in
  dict_get m (u8 "開催日（令和〇年〇月〇日）") = Some (PStr (u8 "令和8年5月20日"))
  /\ py_in (u8 "8年5月20日") (u8 "令和8年5月20日") = true
  /\ dict_get m (u8 "作成年月日") = Some (PStr (u8 "2026年05月20日"))
  /\ dict_get m (u8 "日付") = Some (PStr (u8 "2026年05月20日"))
  /\ dict_get m (u8 "実施日") = Some (PStr (u8 "2026年05月20日"))
  /\ dict_get m (u8 "作成年_西暦") = Some (PStr (u8 "2026年"))
  /\ dict_get m (u8 "作成月") = Some (PStr (u8 "5月"))
  /\ dict_get m (u8 "作成日") = Some (PStr (u8 "20日")).
Proof.
  intros Hd m. subst m.
  assert (Hp : provided (Some (u8 "2026-05-20")) = true) by reflexivity.
  unfold priority_override; cbv zeta. rewrite Hd.
  repeat apply conj; [ | reflexivity | .. ];
    do 5 peel; rewrite (when_provided_true _ _ _ Hp);
    unfold date_override; rewrite strptime_example;
    repeat (rewrite dict_get_set_ne by literals_differ);
    rewrite dict_get_set_eq; reflexivity.
Qed.

(** C6. For every manual date that [strptime] refuses (the [ValueError]
    branch), the resolver behaves as if no date had been given: the
    resolved mapping is the one of the request without its date, and every
    date-derived key holds what the extracted mapping held (or is absent as
    it was).  The resolver is a total function: nothing is raised. *)
Theorem malformed_date_skipped (req : request) (mapping : pydict pyval) (d : pystr) :
  date req = Some d ->
  strptime d = None ->
  priority_override req mapping = priority_override (without_date req) mapping
  /\ forall k, k ∈ date_keys ->
       dict_get (priority_override req mapping) k = dict_get mapping k.
Proof.
  intros Hd Hbad.
  assert (Heq : priority_override req mapping
                = priority_override (without_date req) mapping).
  { unfold priority_override; cbv zeta. cbn [without_date date user_name
      user_name_furigana staff_name cm_location cm_time cm_attendees
      cm_service_manager]. rewrite Hd.
    rewrite (when_provided_malformed _ _ Hbad), when_provided_None.
    reflexivity. }
  split; [exact Heq|].
  intros k Hk. rewrite Heq. unfold priority_override; cbv zeta.
  cbn [without_date date user_name user_name_furigana staff_name cm_location
       cm_time cm_attendees cm_service_manager].
  unfold date_keys in Hk.
  repeat (apply elem_of_cons in Hk as [-> | Hk]);
    [ .. | by apply elem_of_nil in Hk ];
    do 5 peel; rewrite when_provided_None; do 3 peel; reflexivity.
Qed.

End OverrideClaims.

(** ** Worksheets and workbooks *)

Lemma get_cell_insert (ws : worksheet) rc c rc' :
  get_cell (<[rc := c]> ws) rc' = if decide (rc = rc') then c else get_cell ws rc'.
Proof.
  unfold get_cell. rewrite lookup_insert. by case_decide.
Qed.

Lemma sheet_of_set_sheet wb t ws t' :
  sheet_of (set_sheet wb t ws) t' = if decide (t = t') then ws else sheet_of wb t'.
Proof.
  unfold sheet_of, set_sheet; simpl. rewrite lookup_insert. by case_decide.
Qed.

Lemma cell_at_set_sheet_other wb t ws t' rc :
  t <> t' -> cell_at (set_sheet wb t ws) t' rc = cell_at wb t' rc.
Proof.
  intros Hne. unfold cell_at. rewrite sheet_of_set_sheet. by case_decide.
Qed.

Lemma cell_at_set_sheet_same wb t ws rc :
  cell_at (set_sheet wb t ws) t rc = get_cell ws rc.
Proof.
  unfold cell_at. rewrite sheet_of_set_sheet. by case_decide.
Qed.

Lemma has_sheet_set_sheet wb t ws t' :
  has_sheet wb t = true -> has_sheet (set_sheet wb t ws) t' = has_sheet wb t'.
Proof.
  unfold has_sheet, set_sheet; simpl. intros Ht.
  apply bool_decide_eq_true in Ht.
  apply bool_decide_ext. rewrite lookup_insert. case_decide; [|done].
  subst. split; [done | eauto].
Qed.

Section WriterFacts.
Context {U : UnicodeData}.

Lemma ws_getitem_Ok key rc : ws_getitem key = Ok rc <-> cell_of_key key = Some rc.
Proof.
  unfold ws_getitem. destruct (cell_of_key key); split; congruence.
Qed.

(** An assignment that succeeds is the assignment of the stored value to
    one cell, which is not part of a merged range and keeps its alignment. *)
Lemma ws_setitem_Ok ws key value ws' :
  ws_setitem ws key value = Ok ws' ->
  exists rc v,
    cell_of_key key = Some rc /\ c_merged (get_cell ws rc) = false
    /\ bind_value value = Ok v
    /\ ws' = <[rc := {| c_value := v; c_alignment := c_alignment (get_cell ws rc);
                        c_merged := false |}]> ws.
Proof.
  unfold ws_setitem, ws_getitem.
  destruct (cell_of_key key) as [rc|]; simpl; [|discriminate].
  destruct (c_merged (get_cell ws rc)) eqn:Hm; [discriminate|].
  destruct (bind_value value) as [v|e]; simpl; [|discriminate].
  intros [= <-]. by exists rc, v.
Qed.

(** Restyling a cell that the key denotes cannot fail. *)
Lemma restyle_Ok wb target key f rc :
  cell_of_key key = Some rc ->
  restyle wb target key f =
    (set_sheet wb target
       (<[rc := {| c_value := c_value (get_cell (sheet_of wb target) rc);
                   c_alignment := f (c_alignment (get_cell (sheet_of wb target) rc));
                   c_merged := c_merged (get_cell (sheet_of wb target) rc) |}]>
          (sheet_of wb target)),
     None).
Proof.
  intros Hk. unfold restyle, ws_alignment, ws_set_alignment, ws_getitem.
  rewrite Hk. reflexivity.
Qed.

(** The [try] body for one field either ends normally or leaves the
    workbook as it found it: the only statement that can raise is the
    assignment of the value, and it raises before it changes anything. *)
Lemma write_value_raise wb target key value wb' e :
  write_value wb target key value = (wb', Some e) -> wb' = wb.
Proof.
  unfold write_value. destruct value as [|s|z]; [congruence| |].
  - destruct (ws_setitem _ _ _) as [ws|e'] eqn:Hset; [|congruence].
    apply ws_setitem_Ok in Hset as (rc & v & Hk & _).
    rewrite !(restyle_Ok _ _ _ _ _ Hk).
    repeat case_match; congruence.
  - destruct (ws_setitem _ _ _) as [ws|e'] eqn:Hset; congruence.
Qed.

Lemma cell_at_update wb target rc0 c title rc :
  ~ (title = target /\ rc0 = rc) ->
  cell_at (set_sheet wb target (<[rc0 := c]> (sheet_of wb target))) title rc
  = cell_at wb title rc.
Proof.
  intros Hnot. destruct (decide (target = title)) as [->|Hne].
  - rewrite cell_at_set_sheet_same, get_cell_insert.
    case_decide; [|done]. by destruct Hnot.
  - by apply cell_at_set_sheet_other.
Qed.

Lemma restyle_frame wb target key f wb' e title rc :
  restyle wb target key f = (wb', e) ->
  ~ (title = target /\ cell_of_key key = Some rc) ->
  cell_at wb' title rc = cell_at wb title rc.
Proof.
  intros Hr Hnot. destruct (cell_of_key key) as [rc0|] eqn:Hk.
  - rewrite (restyle_Ok _ _ _ _ _ Hk) in Hr. injection Hr as <- _.
    apply cell_at_update. intros [-> ->]. by apply Hnot.
  - unfold restyle, ws_alignment, ws_getitem in Hr. rewrite Hk in Hr.
    simpl in Hr. by injection Hr as <- _.
Qed.

(** Frame of the [try] body: a cell other than the one the key denotes on
    the target sheet is left as it was. *)
Lemma write_value_frame wb target key value wb' e title rc :
  write_value wb target key value = (wb', e) ->
  ~ (title = target /\ cell_of_key key = Some rc) ->
  cell_at wb' title rc = cell_at wb title rc.
Proof.
  intros Hw Hnot. unfold write_value in Hw.
  destruct value as [|s|z]; [by injection Hw as <- _| |].
  - destruct (ws_setitem _ _ _) as [ws|e'] eqn:Hs; [|by injection Hw as <- _].
    apply ws_setitem_Ok in Hs as (rc0 & v & Hk & _ & _ & ->).
    assert (Hone : forall c, cell_at (set_sheet wb target
                     (<[rc0 := c]> (sheet_of wb target))) title rc
                   = cell_at wb title rc).
    { intros c. apply cell_at_update. intros [-> ->]. by apply Hnot. }
    repeat case_match.
    + rewrite <- (Hone {| c_value := v;
        c_alignment := c_alignment (get_cell (sheet_of wb target) rc0);
        c_merged := false |}).
      by eapply restyle_frame.
    + rewrite <- (Hone {| c_value := v;
        c_alignment := c_alignment (get_cell (sheet_of wb target) rc0);
        c_merged := false |}).
      by eapply restyle_frame.
    + injection Hw as <- _. apply Hone.
  - destruct (ws_setitem _ _ _) as [ws|e'] eqn:Hs; [|by injection Hw as <- _].
    apply ws_setitem_Ok in Hs as (rc0 & v & Hk & _ & _ & ->).
    injection Hw as <- _. apply cell_at_update. intros [-> ->]. by apply Hnot.
Qed.

Lemma restyle_sheets wb target key f wb' e title :
  has_sheet wb target = true ->
  restyle wb target key f = (wb', e) ->
  has_sheet wb' title = has_sheet wb title.
Proof.
  intros Ht Hr. destruct (cell_of_key key) as [rc0|] eqn:Hk.
  - rewrite (restyle_Ok _ _ _ _ _ Hk) in Hr. injection Hr as <- _.
    by apply has_sheet_set_sheet.
  - unfold restyle, ws_alignment, ws_getitem in Hr. rewrite Hk in Hr.
    simpl in Hr. by injection Hr as <- _.
Qed.

(** The [try] body neither adds nor removes a sheet. *)
Lemma write_value_sheets wb target key value wb' e title :
  has_sheet wb target = true ->
  write_value wb target key value = (wb', e) ->
  has_sheet wb' title = has_sheet wb title.
Proof.
  intros Ht Hw. unfold write_value in Hw.
  destruct value as [|s|z]; [by injection Hw as <- _| |].
  - destruct (ws_setitem _ _ _) as [ws|e'] eqn:Hs; [|by injection Hw as <- _].
    pose proof (has_sheet_set_sheet wb target ws) as Hone.
    repeat case_match.
    + rewrite <- (Hone title Ht). eapply restyle_sheets; [|done].
      by rewrite Hone.
    + rewrite <- (Hone title Ht). eapply restyle_sheets; [|done].
      by rewrite Hone.
    + injection Hw as <- _. by apply Hone.
  - destruct (ws_setitem _ _ _) as [ws|e'] eqn:Hs; injection Hw as <- _;
      [by apply has_sheet_set_sheet | done].
Qed.

(** The target sheet is a sheet of the workbook when the default sheet is. *)
Lemma resolve_target_sheet wb default_sheet config_value :
  has_sheet wb default_sheet = true ->
  has_sheet wb (fst (resolve_target wb default_sheet config_value)) = true.
Proof.
  intros Hd. unfold resolve_target. repeat case_match; simpl; congruence.
Qed.

(** The target depends on the workbook through its sheet names only. *)
Lemma resolve_target_ext wb1 wb2 default_sheet config_value :
  (forall t, has_sheet wb1 t = has_sheet wb2 t) ->
  resolve_target wb1 default_sheet config_value
  = resolve_target wb2 default_sheet config_value.
Proof.
  intros H. unfold resolve_target. repeat case_match; try done;
    rewrite H in *; congruence.
Qed.

Lemma select_sheet_Ok wb o default_sheet :
  select_sheet wb o = Ok default_sheet -> has_sheet wb default_sheet = true.
Proof.
  unfold select_sheet, active. intros H.
  repeat case_match; congruence.
Qed.

(** A turn of the loop neither adds nor removes a sheet. *)
Lemma fill_item_sheets cfg default_sheet st item title :
  has_sheet (fst st) default_sheet = true ->
  has_sheet (fst (fill_item cfg default_sheet st item)) title
  = has_sheet (fst st) title.
Proof.
  intros Hd. unfold fill_item. destruct (cfg !! fst item) as [cv|]; [|done].
  destruct (write_value _ _ _ _) as [wb' [e|]] eqn:Hw; simpl;
    (eapply write_value_sheets; [|exact Hw]); by apply resolve_target_sheet.
Qed.

Lemma fold_fill_sheets cfg default_sheet items st title :
  has_sheet (fst st) default_sheet = true ->
  has_sheet (fst (fold_left (fill_item cfg default_sheet) items st)) title
  = has_sheet (fst st) title.
Proof.
  revert st. induction items as [|item items IH]; intros st Hd; [done|].
  simpl. rewrite IH.
  - by apply fill_item_sheets.
  - by rewrite fill_item_sheets.
Qed.

(** The workbook that a turn of the loop leaves does not depend on the
    lines printed so far. *)
Lemma fill_item_fst cfg default_sheet wb log1 log2 item :
  fst (fill_item cfg default_sheet (wb, log1) item)
  = fst (fill_item cfg default_sheet (wb, log2) item).
Proof.
  unfold fill_item; simpl. destruct (cfg !! fst item); [|done].
  by destruct (write_value _ _ _ _) as [wb' [e|]].
Qed.

Lemma fold_fill_fst cfg default_sheet items wb log1 log2 :
  fst (fold_left (fill_item cfg default_sheet) items (wb, log1))
  = fst (fold_left (fill_item cfg default_sheet) items (wb, log2)).
Proof.
  revert wb log1 log2. induction items as [|item items IH]; intros; [done|].
  simpl.
  pose proof (fill_item_fst cfg default_sheet wb log1 log2 item) as H.
  destruct (fill_item cfg default_sheet (wb, log1) item) as [wb1 l1].
  destruct (fill_item cfg default_sheet (wb, log2) item) as [wb2 l2].
  simpl in H. subst wb2. apply IH.
Qed.

(** The lines printed only grow. *)
Lemma fold_fill_log cfg default_sheet items st x :
  In x (snd st) ->
  In x (snd (fold_left (fill_item cfg default_sheet) items st)).
Proof.
  revert st. induction items as [|item items IH]; intros st Hx; [done|].
  simpl. apply IH. unfold fill_item. destruct (cfg !! fst item); [|done].
  destruct (write_value _ _ _ _) as [wb' [e|]]; simpl; [|done].
  apply in_or_app. by left.
Qed.

(** Skipping a turn that leaves the workbook as it is: the loop over
    [l1 ++ item :: l2] and the loop over [l1 ++ l2] fill the same workbook. *)
Lemma fold_fill_skip cfg default_sheet l1 item l2 st :
  fst (fill_item cfg default_sheet
         (fold_left (fill_item cfg default_sheet) l1 st) item)
  = fst (fold_left (fill_item cfg default_sheet) l1 st) ->
  fst (fold_left (fill_item cfg default_sheet) (l1 ++ item :: l2) st)
  = fst (fold_left (fill_item cfg default_sheet) (l1 ++ l2) st).
Proof.
  intros H. rewrite !fold_left_app. simpl.
  destruct (fold_left (fill_item cfg default_sheet) l1 st) as [wb1 log1].
  destruct (fill_item cfg default_sheet (wb1, log1) item) as [wb2 log2].
  simpl in H. subst wb2. apply fold_fill_fst.
Qed.

(** Frame of the loop. *)
Lemma fold_fill_frame cfg default_sheet wb0 title rc items st :
  has_sheet wb0 default_sheet = true ->
  (forall t, has_sheet (fst st) t = has_sheet wb0 t) ->
  (forall label value cv,
     In (label, value) items -> cfg !! label = Some cv ->
     ~ (title = fst (resolve_target wb0 default_sheet cv)
        /\ cell_of_key (snd (resolve_target wb0 default_sheet cv)) = Some rc)) ->
  cell_at (fst (fold_left (fill_item cfg default_sheet) items st)) title rc
  = cell_at (fst st) title rc.
Proof.
  intros Hd. revert st.
  induction items as [|[label value] items IH]; intros st Hs Hno; [done|].
  simpl. rewrite IH.
  - unfold fill_item; simpl. destruct (cfg !! label) as [cv|] eqn:Hc; [|done].
    destruct (write_value _ _ _ _) as [wb' e] eqn:Hw.
    assert (cell_at wb' title rc = cell_at (fst st) title rc) as Hcell.
    { eapply write_value_frame; [exact Hw|].
      rewrite (resolve_target_ext _ wb0) by done.
      eapply (Hno label value); [by left | done]. }
    by destruct e.
  - intros t. rewrite fill_item_sheets; [done|]. by rewrite Hs.
  - intros l v cv Hin. apply (Hno l v). by right.
Qed.

End WriterFacts.

(** ** The spreadsheet writer *)

Section WriterClaims.
Context {U : UnicodeData}.

Lemma fold_fill_unknown cfg default_sheet items st :
  (forall label value, In (label, value) items -> cfg !! label = None) ->
  fold_left (fill_item cfg default_sheet) items st = st.
Proof.
  revert st. induction items as [|[label value] items IH]; intros st H; [done|].
  simpl. unfold fill_item at 2. simpl.
  rewrite (H label value) by (by left). apply IH.
  intros l v Hin. apply (H l v). by right.
Qed.

(** What [fill_excel] returns once the template is loaded, the default
    sheet is found and the output can be written. *)
Lemma fill_excel_Ok w uuid path mapping cfg out wb default_sheet :
  load_workbook w path = Ok wb ->
  select_sheet wb (dict_get mapping (u8 "_sheet_name")) = Ok default_sheet ->
  can_write w (os_path_join OUTPUT_DIR (output_filename out uuid)) = true ->
  fill_excel w uuid path mapping cfg out =
    Ok {| fr_filename := output_filename out uuid;
          fr_path := os_path_join OUTPUT_DIR (output_filename out uuid);
          fr_workbook :=
            fst (fold_left (fill_item cfg default_sheet)
                   (dict_remove mapping (u8 "_sheet_name")) (wb, []));
          fr_log :=
            snd (fold_left (fill_item cfg default_sheet)
                   (dict_remove mapping (u8 "_sheet_name")) (wb, [])) |}.
Proof.
  intros Hl Hs Hw. unfold fill_excel. rewrite Hl. simpl. rewrite Hs. simpl.
  by rewrite Hw.
Qed.

(** The name that [fill_excel] returns and the path it saves to. *)
Lemma fill_excel_name w uuid path mapping cfg out r :
  fill_excel w uuid path mapping cfg out = Ok r ->
  fr_filename r = output_filename out uuid
  /\ fr_path r = os_path_join OUTPUT_DIR (fr_filename r).
Proof.
  unfold fill_excel. intros H.
  destruct (load_workbook w path) as [wb|]; [|discriminate].
  cbn [mbind pyresult_bind] in H.
  destruct (select_sheet wb _) as [ds|]; [|discriminate].
  cbn [mbind pyresult_bind] in H.
  destruct (can_write w _); [|discriminate]. by injection H as <-.
Qed.

(** C7. For a string value that the writer could assign to a cell: when
    the value starts with ["【"] and has fewer than 10 characters, the
    cell's alignment becomes horizontal center, vertical center, text
    rotation 255, wrap_text true, with the cell's former shrink-to-fit and
    indent; otherwise, when the value has more than 50 characters, the
    alignment has wrap_text true, the former horizontal alignment or left
    when there was none, and the former vertical alignment or top when
    there was none; otherwise the alignment is the former one. *)
Theorem string_value_alignment (wb : workbook) (target key s : pystr) (ws : worksheet) :
  ws_setitem (sheet_of wb target) key (PStr s) = Ok ws ->
  exists rc wb',
    cell_of_key key = Some rc
    /\ write_value wb target key (PStr s) = (wb', None)
    /\ let old := c_alignment (cell_at wb target rc) in
       let new := c_alignment (cell_at wb' target rc) in
       (startswith s (u8 "【") = true -> len s < 10 ->
          horizontal new = Some HCenter /\ vertical new = Some VCenter
          /\ textRotation new = 255%Z /\ wrapText new = Some true
          /\ shrinkToFit new = shrinkToFit old /\ indent new = indent old)
       /\ (~ (startswith s (u8 "【") = true /\ len s < 10) -> 50 < len s ->
             wrapText new = Some true
             /\ horizontal new = Some (default HLeft (horizontal old))
             /\ vertical new = Some (default VTop (vertical old)))
       /\ (~ (startswith s (u8 "【") = true /\ len s < 10) -> len s <= 50 ->
             new = old).
Proof.
  intros Hset. pose proof Hset as Hset'.
  apply ws_setitem_Ok in Hset' as (rc & v & Hk & Hm & Hv & ->).
  exists rc. unfold write_value. rewrite Hset.
  rewrite !(restyle_Ok _ _ _ _ _ Hk), !sheet_of_set_sheet.
  destruct (decide (target = target)) as [_|]; [|done].
  rewrite !get_cell_insert. destruct (decide (rc = rc)) as [_|]; [|done].
  cbn [c_alignment c_value c_merged].
  destruct (startswith s (u8 "【")) eqn:Hb; simpl andb.
  - destruct (len s <? 10) eqn:H10.
    + eexists; split; [done|split; [done|]].
      rewrite cell_at_set_sheet_same, get_cell_insert.
      destruct (decide (rc = rc)) as [_|]; [|done]. cbn [c_alignment].
      apply N.ltb_lt in H10. repeat apply conj.
      * by intros _ _.
      * intros Hn. destruct Hn. by split.
      * intros Hn. destruct Hn. by split.
    + apply N.ltb_ge in H10. destruct (50 <? len s) eqn:H50.
      * eexists; split; [done|split; [done|]].
        rewrite cell_at_set_sheet_same, get_cell_insert.
        destruct (decide (rc = rc)) as [_|]; [|done]. cbn [c_alignment].
        apply N.ltb_lt in H50. repeat apply conj.
        -- intros _ ?. lia.
        -- by intros _ _.
        -- intros _ ?. lia.
      * eexists; split; [done|split; [done|]].
        rewrite cell_at_set_sheet_same, get_cell_insert.
        destruct (decide (rc = rc)) as [_|]; [|done]. cbn [c_alignment].
        apply N.ltb_ge in H50. repeat apply conj.
        -- intros _ ?. lia.
        -- intros _ ?. lia.
        -- by intros _ _.
  - destruct (50 <? len s) eqn:H50.
    + eexists; split; [done|split; [done|]].
      rewrite cell_at_set_sheet_same, get_cell_insert.
      destruct (decide (rc = rc)) as [_|]; [|done]. cbn [c_alignment].
      apply N.ltb_lt in H50. repeat apply conj.
      * intros ?. congruence.
      * by intros _ _.
      * intros _ ?. lia.
    + eexists; split; [done|split; [done|]].
      rewrite cell_at_set_sheet_same, get_cell_insert.
      destruct (decide (rc = rc)) as [_|]; [|done]. cbn [c_alignment].
      apply N.ltb_ge in H50. repeat apply conj.
      * intros ?. congruence.
      * intros _ ?. lia.
      * by intros _ _.
Qed.

(** C2, as amended. A null value leaves the whole workbook as it is and
    prints nothing.  An empty string is not skipped: when the key denotes a
    cell that is not part of a merged range, the empty string becomes the
    value of that cell, whose alignment is kept. *)
Theorem null_skipped_empty_string_written (wb : workbook) (target key : pystr) :
  write_value wb target key PNone = (wb, None)
  /\ forall rc,
       cell_of_key key = Some rc ->
       c_merged (cell_at wb target rc) = false ->
       exists wb',
         write_value wb target key (PStr []) = (wb', None)
         /\ cell_at wb' target rc =
              {| c_value := PStr [];
                 c_alignment := c_alignment (cell_at wb target rc);
                 c_merged := false |}.
Proof.
  split; [done|]. intros rc Hk Hm.
  unfold write_value, ws_setitem, ws_getitem. rewrite Hk. simpl.
  unfold cell_at in Hm. rewrite Hm. simpl.
  eexists; split; [done|].
  rewrite cell_at_set_sheet_same, get_cell_insert. by case_decide.
Qed.

(** C3. Once [fill_excel] has returned: a cell keeps the value and the
    formatting it has in the template unless it is the target cell of a
    field that occurs both in the extracted mapping and in the template's
    mapping; a turn of the loop for a key that the template's mapping does
    not have changes nothing; and when no extracted key is in the
    template's mapping the saved workbook is the template and nothing was
    printed. *)
Theorem writer_frame (w : world) (uuid : N) (path : pystr)
    (mapping : pydict pyval) (cfg : gmap pystr pystr) (out : option pystr)
    (wb : workbook) (default_sheet : pystr) (r : fill_result) :
  load_workbook w path = Ok wb ->
  select_sheet wb (dict_get mapping (u8 "_sheet_name")) = Ok default_sheet ->
  fill_excel w uuid path mapping cfg out = Ok r ->
  (forall title rc,
     (forall label value cv,
        In (label, value) (dict_remove mapping (u8 "_sheet_name")) ->
        cfg !! label = Some cv ->
        ~ (title = fst (resolve_target wb default_sheet cv)
           /\ cell_of_key (snd (resolve_target wb default_sheet cv)) = Some rc)) ->
     cell_at (fr_workbook r) title rc = cell_at wb title rc)
  /\ (forall st label value,
        cfg !! label = None -> fill_item cfg default_sheet st (label, value) = st)
  /\ ((forall label value,
         In (label, value) (dict_remove mapping (u8 "_sheet_name")) ->
         cfg !! label = None) ->
      fr_workbook r = wb /\ fr_log r = []).
Proof.
  intros Hl Hs Hr. pose proof (select_sheet_Ok _ _ _ Hs) as Hd.
  unfold fill_excel in Hr. rewrite Hl in Hr. simpl in Hr.
  rewrite Hs in Hr. simpl in Hr.
  destruct (can_write w _); [|discriminate]. injection Hr as <-.
  cbn [fr_workbook fr_log]. repeat apply conj.
  - intros title rc Hno.
    by rewrite (fold_fill_frame cfg default_sheet wb title rc).
  - intros st label value Hc. unfold fill_item. simpl. by rewrite Hc.
  - intros Hno. by rewrite fold_fill_unknown.
Qed.

(** C8. When the [try] body of a field raises (the assignment of the value
    or a formatting step fails), [fill_excel] still saves a workbook and
    returns the output name: the workbook saved is the one that the loop
    over the other fields fills, in the same order, and the field is
    reported in the lines printed. *)
Theorem cell_failure_skipped (w : world) (uuid : N) (path : pystr)
    (mapping : pydict pyval) (cfg : gmap pystr pystr) (out : option pystr)
    (wb : workbook) (default_sheet : pystr)
    (l1 l2 : pydict pyval) (label : pystr) (value : pyval)
    (cv : pystr) (wbx : workbook) (e : pyexn) :
  load_workbook w path = Ok wb ->
  select_sheet wb (dict_get mapping (u8 "_sheet_name")) = Ok default_sheet ->
  can_write w (os_path_join OUTPUT_DIR (output_filename out uuid)) = true ->
  dict_remove mapping (u8 "_sheet_name") = l1 ++ (label, value) :: l2 ->
  cfg !! label = Some cv ->
  (let st1 := fold_left (fill_item cfg default_sheet) l1 (wb, []) in
   let tc := resolve_target (fst st1) default_sheet cv in
   write_value (fst st1) (fst tc) (snd tc) value = (wbx, Some e)) ->
  exists r,
    fill_excel w uuid path mapping cfg out = Ok r
    /\ fr_filename r = output_filename out uuid
    /\ fr_path r = os_path_join OUTPUT_DIR (output_filename out uuid)
    /\ fr_workbook r
       = fst (fold_left (fill_item cfg default_sheet) (l1 ++ l2) (wb, []))
    /\ In (snd (resolve_target wb default_sheet cv), label) (fr_log r).
Proof.
  intros Hl Hs Hw Hitems Hc Hfail. cbv zeta in Hfail.
  pose proof (select_sheet_Ok _ _ _ Hs) as Hd.
  eexists. split; [by apply fill_excel_Ok|].
  cbn [fr_filename fr_path fr_workbook fr_log]. rewrite Hitems.
  pose proof (write_value_raise _ _ _ _ _ _ Hfail) as ->.
  assert (Hstep : fill_item cfg default_sheet
                    (fold_left (fill_item cfg default_sheet) l1 (wb, []))
                    (label, value)
                  = (fst (fold_left (fill_item cfg default_sheet) l1 (wb, [])),
                     snd (fold_left (fill_item cfg default_sheet) l1 (wb, []))
                       ++ [(snd (resolve_target wb default_sheet cv), label)])).
  { unfold fill_item at 1. cbn [fst snd]. rewrite Hc, Hfail.
    rewrite (resolve_target_ext _ wb); [done|].
    intros t. by rewrite fold_fill_sheets. }
  repeat apply conj; [done | done | |].
  - apply fold_fill_skip. by rewrite Hstep.
  - rewrite fold_left_app. simpl. rewrite Hstep.
    apply fold_fill_log. simpl. apply in_or_app. right. by left.
Qed.

(** *** Keys that contain ["!"] *)

Lemma int_of_digits_bad acc ds c :
  In c ds -> digit_value c = None -> int_of_digits acc ds = None.
Proof.
  revert acc. induction ds as [|d ds IH]; intros acc Hin Hc; [done|].
  simpl. destruct Hin as [->|Hin]; [by rewrite Hc|].
  destruct (digit_value d); [by apply IH | done].
Qed.

Lemma span_letters_rest s c :
  In c s -> letter_index c = None -> In c (snd (span_letters s)).
Proof.
  induction s as [|d s IH]; intros Hin Hc; [done|].
  simpl. destruct (letter_index d) eqn:Hd; [|done].
  simpl. destruct Hin as [->|Hin]; [congruence | by apply IH].
Qed.

Lemma drop_dollar_keeps s c : In c s -> c <> 36 -> In c (drop_dollar s).
Proof.
  intros Hin Hc. destruct s as [|d s]; [done|]. simpl.
  destruct (decide (d = 36)) as [->|Hd].
  - destruct Hin; [congruence | done].
  - unfold drop_dollar. repeat case_match; done.
Qed.

Lemma chomp_keeps s c : In c s -> c <> 10 -> In c (chomp s).
Proof.
  intros Hin Hc. unfold chomp. destruct (rev s) as [|d r] eqn:Hr; [done|].
  assert (Hs : s = rev r ++ [d]).
  { by rewrite <- (rev_involutive s), Hr. }
  destruct (decide (d = 10)) as [->|Hd].
  - rewrite Hs in Hin. apply in_app_or in Hin as [Hin|[<-|[]]]; [done|congruence].
  - repeat case_match; done.
Qed.

(** A key with an exclamation mark denotes no cell: the assignment raises. *)
Lemma cell_of_key_bang key : In 33 key -> cell_of_key key = None.
Proof.
  intros Hin. unfold cell_of_key.
  assert (H1 : In 33 (drop_dollar (chomp key))).
  { apply drop_dollar_keeps; [|done]. by apply chomp_keeps. }
  assert (H2 : In 33 (drop_dollar (snd (span_letters (drop_dollar (chomp key)))))).
  { apply drop_dollar_keeps; [|done]. by apply span_letters_rest. }
  destruct (_ && _); [|done].
  destruct (drop_dollar (snd _)) as [|d ds] eqn:Hds; [done|].
  by rewrite (int_of_digits_bad 0 (d :: ds) 33 H2).
Qed.

Lemma split_no_sep sep s : ~ In sep s -> split sep s = [s].
Proof.
  induction s as [|c s IH]; intros Hn; [done|]. simpl.
  destruct (c =? sep) eqn:E.
  - apply N.eqb_eq in E. destruct Hn. by left.
  - rewrite IH; [done|]. intros H. apply Hn. by right.
Qed.

Lemma split_app sep s c :
  ~ In sep s -> ~ In sep c -> split sep (s ++ sep :: c) = [s; c].
Proof.
  intros Hs Hc. induction s as [|d s IH]; simpl.
  - by rewrite N.eqb_refl, split_no_sep.
  - destruct (d =? sep) eqn:E.
    + apply N.eqb_eq in E. destruct Hs. by left.
    + rewrite IH; [done|]. intros H. apply Hs. by right.
Qed.

(** A value ["Sheet!Cell"] whose sheet the workbook does not have is kept
    whole, for the default sheet. *)
Lemma resolve_target_unknown_sheet wb default_sheet s_name c_coord :
  ~ In 33 s_name -> ~ In 33 c_coord -> has_sheet wb s_name = false ->
  resolve_target wb default_sheet (s_name ++ u8 "!" ++ c_coord)
  = (default_sheet, s_name ++ u8 "!" ++ c_coord).
Proof.
  intros Hs Hc Hh. unfold resolve_target.
  change (u8 "!" ++ c_coord) with (33 :: c_coord).
  rewrite (split_app _ _ _ Hs Hc), Hh. by case_match.
Qed.

(** The [try] body for a key that denotes no cell. *)
Lemma write_value_no_cell wb target key value :
  cell_of_key key = None ->
  write_value wb target key value
  = (wb, match value with PNone => None | _ => Some ValueError end).
Proof.
  intros Hk. unfold write_value, ws_setitem, ws_getitem. rewrite Hk.
  by destruct value.
Qed.

(** C10. For a field configured as ["SheetName!Cell"] where the workbook
    has no sheet [SheetName]: the whole string is taken as a cell
    coordinate of the default sheet; it denotes no cell, so the [try] body
    changes nothing (it raises, unless the value is null and the field is
    skipped before the assignment) and the exception is caught;
    [fill_excel] goes on, saves the workbook that the loop over the other
    fields fills, and returns the output name. *)
Theorem unknown_sheet_field_skipped (w : world) (uuid : N) (path : pystr)
    (mapping : pydict pyval) (cfg : gmap pystr pystr) (out : option pystr)
    (wb : workbook) (default_sheet : pystr)
    (l1 l2 : pydict pyval) (label : pystr) (value : pyval)
    (s_name c_coord : pystr) :
  load_workbook w path = Ok wb ->
  select_sheet wb (dict_get mapping (u8 "_sheet_name")) = Ok default_sheet ->
  can_write w (os_path_join OUTPUT_DIR (output_filename out uuid)) = true ->
  dict_remove mapping (u8 "_sheet_name") = l1 ++ (label, value) :: l2 ->
  cfg !! label = Some (s_name ++ u8 "!" ++ c_coord) ->
  ~ In 33 s_name -> ~ In 33 c_coord ->
  has_sheet wb s_name = false ->
  let st1 := fold_left (fill_item cfg default_sheet) l1 (wb, []) in
  resolve_target (fst st1) default_sheet (s_name ++ u8 "!" ++ c_coord)
    = (default_sheet, s_name ++ u8 "!" ++ c_coord)
  /\ ws_getitem (s_name ++ u8 "!" ++ c_coord) = Raise ValueError
  /\ write_value (fst st1) default_sheet (s_name ++ u8 "!" ++ c_coord) value
     = (fst st1, match value with PNone => None | _ => Some ValueError end)
  /\ exists r,
       fill_excel w uuid path mapping cfg out = Ok r
       /\ fr_filename r = output_filename out uuid
       /\ fr_workbook r
          = fst (fold_left (fill_item cfg default_sheet) (l1 ++ l2) (wb, [])).
Proof.
  intros Hl Hs Hw Hitems Hc Hn1 Hn2 Hh st1.
  pose proof (select_sheet_Ok _ _ _ Hs) as Hd.
  assert (Hbang : cell_of_key (s_name ++ u8 "!" ++ c_coord) = None).
  { apply cell_of_key_bang. apply in_or_app. right. by left. }
  assert (Hh1 : has_sheet (fst st1) s_name = false).
  { subst st1. by rewrite fold_fill_sheets. }
  pose proof (resolve_target_unknown_sheet (fst st1) default_sheet _ _ Hn1 Hn2 Hh1)
    as Hres.
  repeat apply conj.
  - exact Hres.
  - unfold ws_getitem. by rewrite Hbang.
  - by apply write_value_no_cell.
  - eexists. split; [by apply fill_excel_Ok|].
    cbn [fr_filename fr_workbook]. split; [done|].
    rewrite Hitems. apply fold_fill_skip. fold st1.
    unfold fill_item. cbn [fst snd]. unfold pystr in *.
    rewrite Hc, Hres. cbn [fst snd].
    rewrite (write_value_no_cell _ _ _ _ Hbang). by destruct value.
Qed.

End WriterClaims.

(** ** The handler *)

Lemma output_filename_given l uuid : l <> [] -> output_filename (Some l) uuid = l.
Proof. intros H. by destruct l. Qed.

Lemma save_uploads_none w fs n file_paths :
  forallb (fun f => negb (truthy (uf_filename f))) fs = true ->
  save_uploads w fs n file_paths = Ok (file_paths, n).
Proof.
  induction fs as [|f fs IH]; intros H; [done|].
  simpl in H. apply andb_true_iff in H as [Hf Hfs]. simpl.
  destruct (uf_filename f) as [[|c s]|]; try by apply IH.
  discriminate.
Qed.

Section HandlerClaims.
Context {U : UnicodeData}.

Lemma custom_filename_not_empty w tpl safe : custom_filename w tpl safe <> [].
Proof.
  unfold custom_filename. intros H.
  apply app_eq_nil in H as [_ H]. discriminate.
Qed.

(** For a template of the registry the handler answers 200 or 500. *)
Lemma known_template_status w req tpl :
  TEMPLATE_CONFIG w !! template_id req = Some tpl ->
  status_of (process_data w req) = 200%Z \/ status_of (process_data w req) = 500%Z.
Proof.
  intros Ht. unfold process_data. rewrite Ht.
  unfold template_source_path. repeat case_match; simpl; auto.
  all: repeat case_match; simpl; auto.
Qed.

(** C1 (what the code does). For a request whose template is in the
    registry, whose text (free text and manual fields together) is empty
    and which carries no uploaded file, the handler answers 500, not 400:
    when the template file is found, the [HTTPException] with status 400
    is raised inside the first [try] and replaced there by one with status
    500. *)
Theorem empty_request_answers_500 (w : world) (req : request) (tpl : template) :
  TEMPLATE_CONFIG w !! template_id req = Some tpl ->
  full_text_input req = [] ->
  no_uploads req = true ->
  status_of (process_data w req) = 500%Z
  /\ extract_stage w req tpl = Raise (HTTPException 400 NoInputProvided)
  /\ forall path,
       template_source_path w tpl = Ok path ->
       process_data w req = Raise (HTTPException 500 AIProcessingFailed).
Proof.
  intros Ht Htext Hfiles.
  assert (Hx : extract_stage w req tpl = Raise (HTTPException 400 NoInputProvided)).
  { unfold extract_stage. unfold no_uploads in Hfiles.
    destruct (files req) as [[|f fs]|];
      try rewrite (save_uploads_none w (f :: fs) 0 [] Hfiles);
      cbn [mbind pyresult_bind fst]; rewrite Htext, pystr_eqb_refl;
      reflexivity. }
  unfold process_data. rewrite Ht, Hx.
  repeat apply conj; [|done|].
  - unfold template_source_path. by repeat case_match.
  - by intros path ->.
Qed.

(** C9, as amended. When the handler succeeds, the name of the output
    workbook is the current date as YY.MM.DD, an underscore, the display
    name of the template, and the sanitized user name of the resolved
    mapping between 【 and 】, followed by .xlsx; the workbook is saved under
    that name in the output directory.  No UUID is part of it. *)
Theorem output_name_from_date_template_user (w : world) (req : request) (r : response) :
  process_data w req = Ok r ->
  exists tpl extracted file_paths n safe,
    TEMPLATE_CONFIG w !! template_id req = Some tpl
    /\ extract_stage w req tpl = Ok (extracted, file_paths, n)
    /\ safe_user_name (user_name_val (with_sheet_name tpl extracted)) = Ok safe
    /\ filename r = strftime_ymd_dots (now w) ++ u8 "_" ++ t_name tpl ++
                    u8 "【" ++ safe ++ u8 "】.xlsx"
    /\ fr_path (saved r) = os_path_join OUTPUT_DIR (filename r).
Proof.
  unfold process_data. intros H.
  destruct (TEMPLATE_CONFIG w !! template_id req) as [tpl|]; [|discriminate].
  destruct (template_source_path w tpl) as [path|e]; [|discriminate].
  simpl in H.
  destruct (extract_stage w req tpl) as [[[extracted file_paths] n]|e] eqn:Hx;
    [|discriminate].
  destruct (excel_stage w n tpl path extracted) as [r0|e] eqn:Hf; [|discriminate].
  injection H as <-. cbn [filename saved].
  unfold excel_stage in Hf.
  destruct (safe_user_name _) as [safe|e] eqn:Hsafe; [|discriminate].
  cbn [mbind pyresult_bind] in Hf.
  apply fill_excel_name in Hf as [Hname Hpath].
  rewrite output_filename_given in Hname by apply custom_filename_not_empty.
  exists tpl, extracted, file_paths, n, safe.
  repeat apply conj; done.
Qed.

End HandlerClaims.

(* ===================================================================== *)
(** * The properties on the small installation *)
(* ===================================================================== *)

(** A concrete list does not hold a character. *)
Ltac not_in_literal :=
  let H := fresh in intro H; vm_compute in H; intuition discriminate.

(** The extracted mapping says "A", the form says "B": "B" wins. *)
Lemma manual_user_name_wins_witness :
  user_name ex_request = Some (u8 "B")
  /\ strip (u8 "B") <> []
  /\ dict_get (@priority_override ascii_only ex_request [(u8 "氏名", PStr (u8 "A"))])
       (u8 "氏名") = Some (PStr (u8 "B"))
  /\ dict_get (@priority_override ascii_only ex_request [(u8 "氏名", PStr (u8 "A"))])
       (u8 "利用者氏名") = Some (PStr (u8 "B"))
  /\ dict_get (@priority_override ascii_only ex_request [(u8 "氏名", PStr (u8 "A"))])
       (u8 "利用者様") = Some (PStr (u8 "B")).
Proof.
  split; [reflexivity|]. split; [literals_differ|].
  apply (@manual_user_name_wins ascii_only ex_request _ (u8 "B"));
    [reflexivity | literals_differ].
Defined.

Lemma date_example_resolved_witness :
  date ex_request = Some (u8 "2026-05-20")
  /\ dict_get (@priority_override ascii_only ex_request ex_answer) (u8 "日付")
     = Some (PStr (u8 "2026年05月20日"))
  /\ dict_get (@priority_override ascii_only ex_request ex_answer)
       (u8 "開催日（令和〇年〇月〇日）")
     = Some (PStr (u8 "令和8年5月20日")).
Proof.
  split; [reflexivity|].
  pose proof (@date_example_resolved ascii_only ex_request ex_answer eq_refl) as H.
  cbv zeta in H. destruct H as (He & _ & _ & Hd & _). by split.
Defined.

Lemma malformed_date_skipped_witness :
  date ex_request_bad_date = Some (u8 "2026-02-30")
  /\ @strptime ascii_only (u8 "2026-02-30") = None
  /\ dict_get (@priority_override ascii_only ex_request_bad_date ex_answer) (u8 "日付")
     = Some (PStr (u8 "someday")).
Proof.
  split; [reflexivity|]. split; [reflexivity|].
  destruct (@malformed_date_skipped ascii_only ex_request_bad_date ex_answer
              (u8 "2026-02-30") eq_refl eq_refl) as [_ H].
  rewrite (H (u8 "日付")); [reflexivity|].
  unfold date_keys. do 4 apply list_elem_of_further. apply list_elem_of_here.
Defined.

(** The status tag of the specification, written over a right-aligned
    cell with shrink-to-fit and an indent of 2. *)
Lemma string_value_alignment_witness :
  @ws_setitem ascii_only (sheet_of ex_workbook (u8 "Sheet1")) (u8 "A1")
     (PStr (u8 "【達成】")) = Ok ex_sheet_tagged
  /\ exists wb',
       @write_value ascii_only ex_workbook (u8 "Sheet1") (u8 "A1")
         (PStr (u8 "【達成】")) = (wb', None)
       /\ horizontal (c_alignment (cell_at wb' (u8 "Sheet1") (1, 1))) = Some HCenter
       /\ textRotation (c_alignment (cell_at wb' (u8 "Sheet1") (1, 1))) = 255%Z
       /\ shrinkToFit (c_alignment (cell_at wb' (u8 "Sheet1") (1, 1))) = Some true
       /\ indent (c_alignment (cell_at wb' (u8 "Sheet1") (1, 1))) = 2%Z.
Proof.
  assert (H : @ws_setitem ascii_only (sheet_of ex_workbook (u8 "Sheet1")) (u8 "A1")
                (PStr (u8 "【達成】")) = Ok ex_sheet_tagged)
    by (vm_compute; reflexivity).
  split; [exact H|].
  destruct (@string_value_alignment ascii_only ex_workbook (u8 "Sheet1") (u8 "A1")
              (u8 "【達成】") ex_sheet_tagged H) as (rc & wb' & Hk & Hw & Ha & _).
  assert (rc = (1, 1)) as -> by (vm_compute in Hk; congruence).
  exists wb'. split; [exact Hw|].
  destruct (Ha eq_refl eq_refl) as (H1 & _ & H3 & _ & H5 & H6).
  repeat apply conj; [exact H1 | exact H3 | by rewrite H5 | by rewrite H6].
Defined.

(** C2, a counterexample. A1 of the template holds ["default"]; the mapping
    gives the empty string for the field of A1; the saved workbook holds
    the empty string in A1. *)
Lemma empty_string_overwrites_cell :
  c_value (cell_at ex_workbook (u8 "Sheet1") (1, 1)) = PStr (u8 "default")
  /\ exists r,
       @fill_excel ascii_only (ex_world 0 []) 0 (u8 "template/report.xlsx")
         [(u8 "氏名", PStr [])] ex_mapping None = Ok r
       /\ c_value (cell_at (fr_workbook r) (u8 "Sheet1") (1, 1)) = PStr [].
Proof.
  split; [reflexivity|]. eexists. split; [vm_compute; reflexivity|].
  vm_compute. reflexivity.
Defined.

Lemma null_skipped_empty_string_written_witness :
  @cell_of_key ascii_only (u8 "A1") = Some (1, 1)
  /\ c_merged (cell_at ex_workbook (u8 "Sheet1") (1, 1)) = false
  /\ @write_value ascii_only ex_workbook (u8 "Sheet1") (u8 "A1") PNone
     = (ex_workbook, None)
  /\ exists wb',
       @write_value ascii_only ex_workbook (u8 "Sheet1") (u8 "A1") (PStr [])
       = (wb', None)
       /\ cell_at wb' (u8 "Sheet1") (1, 1)
          = {| c_value := PStr []; c_alignment := right_aligned; c_merged := false |}.
Proof.
  split; [reflexivity|]. split; [reflexivity|].
  destruct (@null_skipped_empty_string_written ascii_only ex_workbook
              (u8 "Sheet1") (u8 "A1")) as [Hnull Hempty].
  split; [exact Hnull|].
  destruct (Hempty (1, 1) eq_refl eq_refl) as (wb' & Hw & Hc).
  exists wb'. split; [exact Hw|]. rewrite Hc. reflexivity.
Defined.

(** C1 of the small installation: the template is known and its file is
    there, the request carries nothing, the answer is 500. *)
Lemma empty_request_answers_500_witness :
  TEMPLATE_CONFIG (ex_world 0 ex_answer) !! template_id ex_request_empty
    = Some ex_template
  /\ full_text_input ex_request_empty = []
  /\ no_uploads ex_request_empty = true
  /\ @process_data ascii_only (ex_world 0 ex_answer) ex_request_empty
     = Raise (HTTPException 500 AIProcessingFailed).
Proof.
  assert (H1 : TEMPLATE_CONFIG (ex_world 0 ex_answer) !! template_id ex_request_empty
               = Some ex_template) by (vm_compute; reflexivity).
  split; [exact H1|]. split; [reflexivity|]. split; [reflexivity|].
  destruct (@empty_request_answers_500 ascii_only (ex_world 0 ex_answer)
              ex_request_empty ex_template H1 eq_refl eq_refl) as (_ & _ & H).
  apply (H (u8 "template/report.xlsx")). reflexivity.
Defined.

(** C1 at the input of the claim, evaluated. *)
Example empty_request_evaluated :
  status_of (@process_data ascii_only (ex_world 0 ex_answer) ex_request_empty)
  = 500%Z.
Proof. vm_compute. reflexivity. Qed.

(** The cell C1 of the first sheet is the target of no field. *)
Lemma writer_frame_witness :
  load_workbook (ex_world 0 ex_answer) (u8 "template/report.xlsx") = Ok ex_workbook
  /\ select_sheet ex_workbook (dict_get ex_fill_mapping (u8 "_sheet_name"))
     = Ok (u8 "Sheet1")
  /\ exists r,
       @fill_excel ascii_only (ex_world 0 ex_answer) 0 (u8 "template/report.xlsx")
         ex_fill_mapping ex_mapping None = Ok r
       /\ cell_at (fr_workbook r) (u8 "Sheet1") (1, 3)
          = cell_at ex_workbook (u8 "Sheet1") (1, 3).
Proof.
  split; [reflexivity|]. split; [reflexivity|].
  pose proof (@fill_excel_Ok ascii_only (ex_world 0 ex_answer) 0
                (u8 "template/report.xlsx") ex_fill_mapping ex_mapping None
                ex_workbook (u8 "Sheet1") eq_refl eq_refl eq_refl) as Hfill.
  eexists. split; [exact Hfill|].
  destruct (@writer_frame ascii_only (ex_world 0 ex_answer) 0
              (u8 "template/report.xlsx") ex_fill_mapping ex_mapping None
              ex_workbook (u8 "Sheet1") _ eq_refl eq_refl Hfill) as [Hframe _].
  apply Hframe.
  intros label value cv Hin Hc [Ht Hk]. vm_compute in Hin.
  repeat (destruct Hin as [Hin|Hin];
          [injection Hin as <- <-; vm_compute in Hc;
           first [ discriminate Hc
                 | injection Hc as <-; vm_compute in Ht; vm_compute in Hk;
                   congruence ] |]).
  destruct Hin.
Defined.

(** The field of B2, a merged cell, fails; the fields before and after it
    are written and the workbook is saved. *)
Lemma cell_failure_skipped_witness :
  @write_value ascii_only
     (fst (fold_left (@fill_item ascii_only ex_mapping (u8 "Sheet1"))
             [(u8 "氏名", PStr (u8 "A"))] (ex_workbook, [])))
     (u8 "Sheet1") (u8 "B2") (PStr (u8 "note"))
  = (fst (fold_left (@fill_item ascii_only ex_mapping (u8 "Sheet1"))
            [(u8 "氏名", PStr (u8 "A"))] (ex_workbook, [])),
     Some AttributeError)
  /\ exists r,
       @fill_excel ascii_only (ex_world 0 ex_answer) 0 (u8 "template/report.xlsx")
         ex_fill_mapping ex_mapping None = Ok r
       /\ fr_filename r = u8 "processed_00000000000000000000000000000000.xlsx"
       /\ c_value (cell_at (fr_workbook r) (u8 "Sheet1") (1, 1)) = PStr (u8 "A")
       /\ c_value (cell_at (fr_workbook r) (u8 "Extra") (2, 1)) = PStr (u8 "team")
       /\ In (u8 "B2", u8 "備考") (fr_log r).
Proof.
  assert (Hfail :
    @write_value ascii_only
       (fst (fold_left (@fill_item ascii_only ex_mapping (u8 "Sheet1"))
               [(u8 "氏名", PStr (u8 "A"))] (ex_workbook, [])))
       (u8 "Sheet1") (u8 "B2") (PStr (u8 "note"))
    = (fst (fold_left (@fill_item ascii_only ex_mapping (u8 "Sheet1"))
              [(u8 "氏名", PStr (u8 "A"))] (ex_workbook, [])),
       Some AttributeError)) by (vm_compute; reflexivity).
  split; [exact Hfail|].
  destruct (@cell_failure_skipped ascii_only (ex_world 0 ex_answer) 0
              (u8 "template/report.xlsx") ex_fill_mapping ex_mapping None
              ex_workbook (u8 "Sheet1")
              [(u8 "氏名", PStr (u8 "A"))]
              [(u8 "日付", PStr (u8 "someday")); (u8 "所属", PStr (u8 "team"));
               (u8 "趣味", PStr (u8 "chess"))]
              (u8 "備考") (PStr (u8 "note")) (u8 "B2") _ AttributeError
              eq_refl eq_refl eq_refl eq_refl eq_refl Hfail)
    as (r & Hr & Hname & _ & Hwb & Hlog).
  exists r. split; [exact Hr|]. split; [by rewrite Hname|].
  rewrite Hwb. repeat apply conj; [vm_compute; reflexivity ..| exact Hlog].
Defined.

(** The field configured as ["Missing!C3"], a sheet the workbook does not
    have. *)
Lemma unknown_sheet_field_skipped_witness :
  ex_mapping !! u8 "日付" = Some (u8 "Missing" ++ u8 "!" ++ u8 "C3")
  /\ has_sheet ex_workbook (u8 "Missing") = false
  /\ exists r,
       @fill_excel ascii_only (ex_world 0 ex_answer) 0 (u8 "template/report.xlsx")
         ex_fill_mapping ex_mapping None = Ok r
       /\ fr_workbook r
          = fst (fold_left (@fill_item ascii_only ex_mapping (u8 "Sheet1"))
                   [(u8 "氏名", PStr (u8 "A")); (u8 "備考", PStr (u8 "note"));
                    (u8 "所属", PStr (u8 "team")); (u8 "趣味", PStr (u8 "chess"))]
                   (ex_workbook, [])).
Proof.
  split; [vm_compute; reflexivity|]. split; [reflexivity|].
  destruct (@unknown_sheet_field_skipped ascii_only (ex_world 0 ex_answer) 0
              (u8 "template/report.xlsx") ex_fill_mapping ex_mapping None
              ex_workbook (u8 "Sheet1")
              [(u8 "氏名", PStr (u8 "A")); (u8 "備考", PStr (u8 "note"))]
              [(u8 "所属", PStr (u8 "team")); (u8 "趣味", PStr (u8 "chess"))]
              (u8 "日付") (PStr (u8 "someday")) (u8 "Missing") (u8 "C3"))
    as (_ & _ & _ & r & Hr & _ & Hwb);
    [reflexivity | reflexivity | reflexivity | reflexivity
    | vm_compute; reflexivity | not_in_literal | not_in_literal | reflexivity |].
  exists r. split; [exact Hr | exact Hwb].
Defined.

(** C9, a counterexample. Two processes draw different UUIDs, always; the
    same form is posted to both, on the same day; the temporary files get
    different names, the output workbooks the same. *)
Lemma same_output_name_twice :
  (forall n m, uuid4 (ex_world 0 ex_answer) n <> uuid4 (ex_world 1 ex_answer) m)
  /\ forall U : UnicodeData,
       exists r1 r2,
         @process_data U (ex_world 0 ex_answer) ex_request = Ok r1
         /\ @process_data U (ex_world 1 ex_answer) ex_request = Ok r2
         /\ cleanup r1 <> cleanup r2
         /\ filename r1 = filename r2
         /\ filename r1 = u8 "26.05.20_Report【B】.xlsx"
         /\ fr_path (saved r1) = fr_path (saved r2).
Proof.
  split.
  - intros n m. simpl. lia.
  - intros U. eexists. eexists.
    split; [vm_compute; reflexivity|]. split; [vm_compute; reflexivity|].
    repeat apply conj; try reflexivity. cbn [cleanup]. discriminate.
Defined.

Lemma output_name_from_date_template_user_witness :
  exists r,
    @process_data ascii_only (ex_world 0 ex_answer) ex_request = Ok r
    /\ filename r = u8 "26.05.20_Report【B】.xlsx"
    /\ fr_path (saved r) = u8 "outputs/26.05.20_Report【B】.xlsx".
Proof.
  destruct (@process_data ascii_only (ex_world 0 ex_answer) ex_request)
    as [r|e] eqn:Hr; [|vm_compute in Hr; discriminate].
  exists r. split; [reflexivity|].
  destruct (@output_name_from_date_template_user ascii_only
              (ex_world 0 ex_answer) ex_request r Hr)
    as (tpl & extracted & fps & n & safe & Ht & Hx & Hs & Hname & Hpath).
  assert (tpl = ex_template) as ->
    by (vm_compute in Ht; injection Ht as <-; vm_compute; reflexivity).
  assert (Hx' : extracted = @priority_override ascii_only ex_request ex_answer).
  { vm_compute in Hx. injection Hx as <- _ _. vm_compute. reflexivity. }
  subst extracted.
  assert (safe = u8 "B") as ->
    by (vm_compute in Hs; injection Hs as <-; reflexivity).
  rewrite Hpath, Hname. split; vm_compute; reflexivity.
Defined.

(* ===================================================================== *)
(** * Further properties of [main.py] *)
(* ===================================================================== *)

(** ** The override resolver, all of it *)

Lemma dict_mem_set {V} (d : pydict V) k v k' :
  dict_mem (dict_set d k v) k' = dict_mem d k' || pystr_eqb k k'.
Proof.
  unfold dict_mem. destruct (pystr_eqb k k') eqn:E.
  - apply pystr_eqb_true in E as ->. rewrite dict_get_set_eq.
    by rewrite orb_true_r.
  - apply pystr_eqb_false in E. rewrite dict_get_set_ne by done.
    by rewrite orb_false_r.
Qed.

Lemma grows_set k v : grows (fun m => dict_set m k v).
Proof. intros m k' H. rewrite dict_mem_set, H. reflexivity. Qed.

Lemma grows_comp f g : grows f -> grows g -> grows (fun m => g (f m)).
Proof. intros Hf Hg m k H. by apply Hg, Hf. Qed.

Lemma grows_when_provided o body :
  (forall x, grows (body x)) -> grows (when_provided o body).
Proof.
  intros Hb m k H. unfold when_provided.
  destruct o as [x|]; [|done]. destruct (provided (Some x)); [by apply Hb | done].
Qed.

Lemma strip_all_space s : strip s = [] -> forall c, In c s -> isspace c = true.
Proof.
  assert (Hl : forall t, lstrip t = [] -> forall c, In c t -> isspace c = true).
  { induction t as [|d t IH]; intros Ht c Hc; [done|]. simpl in Ht.
    destruct (isspace d) eqn:Hd; [|done].
    destruct Hc as [<-|Hc]; [done | by apply IH]. }
  assert (Hhead : forall t, match lstrip t with
                            | [] => True
                            | d :: _ => isspace d = false
                            end).
  { induction t as [|d t IH]; [done|]. simpl.
    destruct (isspace d) eqn:Hd; [exact IH | exact Hd]. }
  unfold strip. intros H c Hc.
  assert (H1 : lstrip (rev (lstrip s)) = []).
  { by rewrite <- (rev_involutive (lstrip _)), H. }
  assert (H2 : lstrip s = []).
  { pose proof (Hhead s) as Hh. destruct (lstrip s) as [|d t] eqn:E; [done|].
    rewrite (Hl _ H1 d) in Hh; [done|].
    apply in_rev. rewrite rev_involutive. by left. }
  by apply (Hl s).
Qed.

Lemma dict_set_same {V} (d : pydict V) k v :
  dict_get d k = Some v -> dict_set d k v = d.
Proof.
  induction d as [|[k' v'] d IH]; simpl; [discriminate|].
  destruct (pystr_eqb k' k); [by intros [= ->] | intros H; by rewrite IH].
Qed.

Lemma when_provided_fixed o body m :
  (forall x, o = Some x -> strip x <> [] -> body x m = m) ->
  when_provided o body m = m.
Proof.
  intros H. destruct o as [x|]; [|done]. unfold when_provided.
  destruct (provided (Some x)) eqn:E; [|done].
  apply H; [done | by apply provided_strip].
Qed.

Section OverrideMore.
Context {U : UnicodeData}.

Lemma grows_date_override d : grows (date_override d).
Proof.
  intros m k H. unfold date_override. destruct (strptime d); [|done].
  rewrite !dict_mem_set, H. reflexivity.
Qed.

(** What [strptime] accepts has the shape [dddd-...]: its fifth character
    is the hyphen. *)
Lemma strptime_shape d dt :
  strptime d = Some dt -> exists y1 y2 y3 y4 r, d = y1 :: y2 :: y3 :: y4 :: 45 :: r.
Proof.
  unfold strptime, match_ymd. intros H.
  destruct d as [|y1 [|y2 [|y3 [|y4 [|h r]]]]]; try discriminate.
  destruct (decide (h = 45)) as [->|Hne]; [by eauto 6|].
  repeat case_match; try discriminate; exfalso; apply Hne; done.
Qed.

(** A date that [strptime] accepts passes the guard [date and date.strip()]. *)
Lemma strptime_provided d dt : strptime d = Some dt -> provided (Some d) = true.
Proof.
  intros H. apply provided_strip. intros Hs.
  destruct (strptime_shape d dt H) as (y1 & y2 & y3 & y4 & r & ->).
  pose proof (strip_all_space _ Hs 45) as H45.
  assert (isspace 45 = true) by (apply H45; simpl; tauto). discriminate.
Qed.

(** X1. The override block touches no key but its own seventeen: every
    other key of the extracted mapping keeps its entry, and a key that was
    absent stays absent. *)
Theorem override_frame (req : request) (mapping : pydict pyval) (k : pystr) :
  k ∉ override_keys ->
  dict_get (priority_override req mapping) k = dict_get mapping k.
Proof.
  intros Hk.
  assert (Hall : Forall (fun k' => k' <> k) override_keys).
  { apply Forall_forall. intros k' Hin ->. by apply Hk. }
  unfold override_keys in Hall.
  repeat (apply Forall_cons in Hall as [? Hall]).
  assert (Hd : k ∉ date_keys).
  { unfold date_keys.
    repeat (apply not_elem_of_cons; split; [congruence|]). apply not_elem_of_nil. }
  unfold priority_override; cbv zeta.
  do 9 (rewrite keeps_when_provided;
        [ | intros ?; first [ by apply keeps_set | by apply keeps_set2
                            | by apply keeps_date_override ] ]).
  reflexivity.
Qed.

(** X2. The override block removes nothing: every key of the extracted
    mapping is a key of the resolved mapping. *)
Theorem override_keeps_keys (req : request) (mapping : pydict pyval) (k : pystr) :
  dict_mem mapping k = true ->
  dict_mem (priority_override req mapping) k = true.
Proof.
  intros H. unfold priority_override; cbv zeta.
  repeat (apply grows_when_provided;
          [ intros x; first [ apply grows_set
                            | apply (grows_comp _ _ (grows_set _ _) (grows_set _ _))
                            | apply grows_date_override ] | ]).
  exact H.
Qed.

Lemma provided_blank o : blank o -> provided o = false.
Proof.
  destruct o as [x|]; [|done]. simpl. intros Hb.
  destruct (provided (Some x)) eqn:E; [|done].
  apply provided_strip in E. by destruct E.
Qed.

Lemma when_provided_blank o body m : blank o -> when_provided o body m = m.
Proof.
  intros Hb. destruct o as [x|]; [|done]. unfold when_provided.
  by rewrite (provided_blank (Some x) Hb).
Qed.

(** X3. Manual fields that are absent, empty or white space only override
    nothing: the resolved mapping is the extracted one. *)
Theorem blank_fields_override_nothing (req : request) (mapping : pydict pyval) :
  blank (user_name req) -> blank (user_name_furigana req) ->
  blank (staff_name req) -> blank (date req) ->
  blank (cm_location req) -> blank (cm_time req) ->
  blank (cm_attendees req) -> blank (cm_service_manager req) ->
  priority_override req mapping = mapping.
Proof.
  intros H1 H2 H3 H4 H5 H6 H7 H8. unfold priority_override; cbv zeta.
  by rewrite !when_provided_blank.
Qed.

(** The entries that the block leaves for the fields other than the user
    name. *)
Lemma resolved_other_fields (req : request) (mapping : pydict pyval) (x : pystr) :
  strip x <> [] ->
  (user_name_furigana req = Some x ->
     dict_get (priority_override req mapping) (u8 "利用者氏名_ふりがな") = Some (PStr x)
     /\ dict_get (priority_override req mapping) (u8 "氏名のふりがな") = Some (PStr x))
  /\ (staff_name req = Some x ->
       dict_get (priority_override req mapping) (u8 "作成者") = Some (PStr x))
  /\ (cm_location req = Some x ->
       dict_get (priority_override req mapping) (u8 "開催場所") = Some (PStr x))
  /\ (cm_time req = Some x ->
       dict_get (priority_override req mapping) (u8 "開催時間") = Some (PStr x))
  /\ (cm_attendees req = Some x ->
       dict_get (priority_override req mapping) (u8 "会議出席者") = Some (PStr x))
  /\ (cm_service_manager req = Some x ->
       dict_get (priority_override req mapping) (u8 "サービス管理責任者") = Some (PStr x)).
Proof.
  intros Hx. apply provided_strip in Hx.
  unfold priority_override; cbv zeta.
  repeat apply conj; intros Hf.
  - split.
    + do 7 peel. rewrite Hf, (when_provided_true _ _ _ Hx).
      rewrite dict_get_set_ne by literals_differ. apply dict_get_set_eq.
    + do 7 peel. rewrite Hf, (when_provided_true _ _ _ Hx).
      apply dict_get_set_eq.
  - do 6 peel. rewrite Hf, (when_provided_true _ _ _ Hx). apply dict_get_set_eq.
  - do 4 peel. rewrite Hf, (when_provided_true _ _ _ Hx). apply dict_get_set_eq.
  - do 3 peel. rewrite Hf, (when_provided_true _ _ _ Hx). apply dict_get_set_eq.
  - do 2 peel. rewrite Hf, (when_provided_true _ _ _ Hx). apply dict_get_set_eq.
  - rewrite Hf, (when_provided_true _ _ _ Hx). apply dict_get_set_eq.
Qed.

Lemma resolved_user_name (req : request) (mapping : pydict pyval) (x : pystr) :
  user_name req = Some x -> strip x <> [] ->
  dict_get (priority_override req mapping) (u8 "氏名") = Some (PStr x)
  /\ dict_get (priority_override req mapping) (u8 "利用者氏名") = Some (PStr x)
  /\ dict_get (priority_override req mapping) (u8 "利用者様") = Some (PStr x).
Proof.
  intros Hu Hx. apply provided_strip in Hx.
  unfold priority_override; cbv zeta. rewrite Hu.
  repeat apply conj.
  - do 8 peel. rewrite (when_provided_true _ _ _ Hx). apply dict_get_set_eq.
  - do 8 peel. rewrite (when_provided_true _ _ _ Hx).
    rewrite dict_get_set_ne by literals_differ. apply dict_get_set_eq.
  - peel. rewrite (when_provided_true _ _ _ Hx). apply dict_get_set_eq.
Qed.

(** The entries that the block leaves for a date that [strptime] accepts. *)
Lemma resolved_date (req : request) (mapping : pydict pyval) (d : pystr) (dt : datetime) :
  date req = Some d -> strptime d = Some dt ->
  dict_get (priority_override req mapping) (u8 "作成年_西暦")
    = Some (PStr (str_of_N (dt_year dt) ++ u8 "年"))
  /\ dict_get (priority_override req mapping) (u8 "作成月")
     = Some (PStr (str_of_N (dt_month dt) ++ u8 "月"))
  /\ dict_get (priority_override req mapping) (u8 "作成日")
     = Some (PStr (str_of_N (dt_day dt) ++ u8 "日"))
  /\ dict_get (priority_override req mapping) (u8 "作成年月日")
     = Some (PStr (strftime_ymd_kanji dt))
  /\ dict_get (priority_override req mapping) (u8 "日付")
     = Some (PStr (strftime_ymd_kanji dt))
  /\ dict_get (priority_override req mapping) (u8 "実施日")
     = Some (PStr (strftime_ymd_kanji dt))
  /\ dict_get (priority_override req mapping) (u8 "開催日（令和〇年〇月〇日）")
     = Some (PStr (u8 "令和" ++ str_of_Z (Z.of_N (dt_year dt) - 2018) ++ u8 "年" ++
                   str_of_N (dt_month dt) ++ u8 "月" ++
                   str_of_N (dt_day dt) ++ u8 "日")).
Proof.
  intros Hd Hdt. pose proof (strptime_provided d dt Hdt) as Hp.
  unfold priority_override; cbv zeta. rewrite Hd.
  repeat apply conj;
    do 5 peel; rewrite (when_provided_true _ _ _ Hp);
    unfold date_override; rewrite Hdt;
    repeat (rewrite dict_get_set_ne by literals_differ);
    rewrite dict_get_set_eq; reflexivity.
Qed.

(** X4. The reading of the name, the staff name, and the place, time,
    attendees and service manager of a case meeting, when not empty after
    trimming, are in the resolved mapping under their keys (the reading
    under two), whatever the extracted mapping held there. *)
Theorem manual_fields_win (req : request) (mapping : pydict pyval) (x : pystr) :
  strip x <> [] ->
  (user_name_furigana req = Some x ->
     dict_get (priority_override req mapping) (u8 "利用者氏名_ふりがな") = Some (PStr x)
     /\ dict_get (priority_override req mapping) (u8 "氏名のふりがな") = Some (PStr x))
  /\ (staff_name req = Some x ->
       dict_get (priority_override req mapping) (u8 "作成者") = Some (PStr x))
  /\ (cm_location req = Some x ->
       dict_get (priority_override req mapping) (u8 "開催場所") = Some (PStr x))
  /\ (cm_time req = Some x ->
       dict_get (priority_override req mapping) (u8 "開催時間") = Some (PStr x))
  /\ (cm_attendees req = Some x ->
       dict_get (priority_override req mapping) (u8 "会議出席者") = Some (PStr x))
  /\ (cm_service_manager req = Some x ->
       dict_get (priority_override req mapping) (u8 "サービス管理責任者") = Some (PStr x)).
Proof. apply resolved_other_fields. Qed.


(** X6. Resolving twice is resolving once: the override block finds its
    own values in a mapping it has resolved and leaves it as it is. *)
Theorem override_idempotent (req : request) (mapping : pydict pyval) :
  priority_override req (priority_override req mapping)
  = priority_override req mapping.
Proof.
  set (R := priority_override req mapping).
  assert (Hu : forall x, user_name req = Some x -> strip x <> [] ->
                 dict_get R (u8 "氏名") = Some (PStr x)
                 /\ dict_get R (u8 "利用者氏名") = Some (PStr x)
                 /\ dict_get R (u8 "利用者様") = Some (PStr x))
    by (intros; by apply resolved_user_name).
  assert (Ho : forall x, strip x <> [] -> _)
    by (intros x Hx; exact (resolved_other_fields req mapping x Hx)).
  assert (Hd : forall d dt, date req = Some d -> strptime d = Some dt -> _)
    by (intros d dt H1 H2; exact (resolved_date req mapping d dt H1 H2)).
  fold R in Hu, Ho, Hd. clearbody R.
  unfold priority_override; cbv zeta.
  rewrite (when_provided_fixed (user_name req) _ R).
  2:{ intros x Hf Hx. destruct (Hu x Hf Hx) as (H1 & H2 & _).
      by rewrite (dict_set_same R _ _ H2), (dict_set_same R _ _ H1). }
  rewrite (when_provided_fixed (user_name_furigana req) _ R).
  2:{ intros x Hf Hx. destruct (Ho x Hx) as (H & _). destruct (H Hf) as [H1 H2].
      by rewrite (dict_set_same R _ _ H1), (dict_set_same R _ _ H2). }
  rewrite (when_provided_fixed (staff_name req) _ R).
  2:{ intros x Hf Hx. destruct (Ho x Hx) as (_ & H & _).
      by rewrite (dict_set_same R _ _ (H Hf)). }
  rewrite (when_provided_fixed (date req) _ R).
  2:{ intros d Hf _. unfold date_override.
      destruct (strptime d) as [dt|] eqn:Hdt; [|done].
      destruct (Hd d dt Hf Hdt) as (H1 & H2 & H3 & H4 & H5 & H6 & H7).
      by rewrite (dict_set_same R _ _ H1), (dict_set_same R _ _ H2),
        (dict_set_same R _ _ H3), (dict_set_same R _ _ H4),
        (dict_set_same R _ _ H5), (dict_set_same R _ _ H6),
        (dict_set_same R _ _ H7). }
  rewrite (when_provided_fixed (cm_location req) _ R).
  2:{ intros x Hf Hx. destruct (Ho x Hx) as (_ & _ & H & _).
      by rewrite (dict_set_same R _ _ (H Hf)). }
  rewrite (when_provided_fixed (cm_time req) _ R).
  2:{ intros x Hf Hx. destruct (Ho x Hx) as (_ & _ & _ & H & _).
      by rewrite (dict_set_same R _ _ (H Hf)). }
  rewrite (when_provided_fixed (cm_attendees req) _ R).
  2:{ intros x Hf Hx. destruct (Ho x Hx) as (_ & _ & _ & _ & H & _).
      by rewrite (dict_set_same R _ _ (H Hf)). }
  rewrite (when_provided_fixed (user_name req) _ R).
  2:{ intros x Hf Hx. destruct (Hu x Hf Hx) as (_ & _ & H3).
      by rewrite (dict_set_same R _ _ H3). }
  rewrite (when_provided_fixed (cm_service_manager req) _ R).
  2:{ intros x Hf Hx. destruct (Ho x Hx) as (_ & _ & _ & _ & _ & H).
      by rewrite (dict_set_same R _ _ (H Hf)). }
  reflexivity.
Qed.

End OverrideMore.

(** ** [strptime] *)

Lemma head_In {A} (l : list A) x : head l = Some x -> In x l.
Proof. destruct l; [done|]. intros [= ->]. by left. Qed.

Lemma in_range_spec lo hi c : in_range lo hi c = true <-> lo <= c /\ c <= hi.
Proof.
  unfold in_range. rewrite andb_true_iff, !N.leb_le. tauto.
Qed.

(** A month that the directive [%m] reads is between 1 and 12 and takes
    one or two characters. *)
Lemma month_alts_spec s m r :
  In (m, r) (month_alts s) ->
  1 <= m /\ m <= 12 /\ ((exists a, s = a :: r) \/ (exists a b, s = a :: b :: r)).
Proof.
  unfold month_alts. intros H.
  apply in_app_or in H as [H|H]; [|apply in_app_or in H as [H|H]].
  - destruct s as [|a [|b s]]; [done | exfalso; revert H; by repeat case_match |].
    destruct (decide (a = 49)) as [->|Hne];
      [|by repeat (case_match; try done; try congruence)].
    destruct (in_range 48 50 b) eqn:E; [|done].
    apply in_range_spec in E. destruct H as [[= <- <-]|[]].
    repeat split; try lia. right. by eauto.
  - destruct s as [|a [|b s]]; [done | exfalso; revert H; by repeat case_match |].
    destruct (decide (a = 48)) as [->|Hne];
      [|by repeat (case_match; try done; try congruence)].
    destruct (in_range 49 57 b) eqn:E; [|done].
    apply in_range_spec in E. destruct H as [[= <- <-]|[]].
    repeat split; try lia. right. by eauto.
  - destruct s as [|a s]; [done|].
    destruct (in_range 49 57 a) eqn:E; [|done].
    apply in_range_spec in E. destruct H as [[= <- <-]|[]].
    repeat split; try lia. left. by eauto.
Qed.

Section StrptimeFacts.
Context {U : UnicodeData}.

(** A day that the directive [%d] reads takes one or two characters. *)
Lemma day_alts_spec s d r :
  In (d, r) (day_alts s) ->
  (exists a, s = a :: r) \/ (exists a b, s = a :: b :: r).
Proof.
  unfold day_alts. intros H.
  repeat (apply in_app_or in H as [H|H]);
    destruct s as [|a [|b s]]; try done;
    repeat (case_match; try done; try congruence);
    destruct H as [[= <- <-]|[]]; eauto.
Qed.

(** X7. What [strptime] returns is a day of the calendar: a year of at
    least 1, a month from 1 to 12 and a day that the month has in that
    year; and the text it read has 8 to 10 characters. *)
Theorem strptime_calendar_day (d : pystr) (dt : datetime) :
  strptime d = Some dt ->
  1 <= dt_year dt
  /\ 1 <= dt_month dt /\ dt_month dt <= 12
  /\ 1 <= dt_day dt /\ dt_day dt <= days_in_month (dt_year dt) (dt_month dt)
  /\ dt_day dt <= 31
  /\ 8 <= len d /\ len d <= 10.
Proof.
  unfold strptime. intros H.
  destruct (match_ymd d) as [[[[y m] dd] rest]|] eqn:Hm; [|done].
  destruct rest; [|done].
  destruct (_ && _) eqn:Hc; [|done]. injection H as <-. simpl.
  apply andb_true_iff in Hc as [Hc Hc3]. apply andb_true_iff in Hc as [Hc1 Hc2].
  apply N.leb_le in Hc1, Hc2, Hc3.
  unfold match_ymd in Hm.
  destruct d as [|y1 [|y2 [|y3 [|y4 [|h r]]]]]; try done.
  destruct (decide (h = 45)) as [->|Hne];
    [|by repeat (case_match; try done; try congruence)].
  destruct (int_of_digits 0 [y1; y2; y3; y4]); [|done].
  apply head_In, in_flat_map in Hm as ([m' r1] & Hin & Hd). simpl in Hd.
  apply month_alts_spec in Hin as (Hm1 & Hm2 & Hshape).
  destruct r1 as [|h2 r2]; [done|].
  destruct (decide (h2 = 45)) as [->|Hne];
    [|by repeat (case_match; try done; try congruence)].
  destruct (head (day_alts r2)) as [[d' rest']|] eqn:Hday; [|done].
  destruct Hd as [[= -> -> -> ->]|[]].
  apply head_In, day_alts_spec in Hday.
  assert (days_in_month y m <= 31).
  { unfold days_in_month. repeat case_match; lia. }
  repeat split; try lia.
  all: unfold len; destruct Hshape as [[a ->]|(a & b & ->)];
       destruct Hday as [[a' ->]|(a' & b' & ->)]; simpl; lia.
Qed.

End StrptimeFacts.

(** ** The text sent to the model *)

Lemma info_line_nil label o : info_line label o = [] <-> truthy o = false.
Proof. destruct o as [[|c s]|]; simpl; split; congruence. Qed.

Lemma manual_info_text_nil req :
  manual_info_text req = [] <-> manual_info_list req = [].
Proof.
  unfold manual_info_text. destruct (manual_info_list req); split; try done.
Qed.

(** X8. The text that the handler tests and sends is empty exactly when
    the free text and the eleven manual fields that are copied into it are
    all absent or empty.  The reading of the name is not among them. *)
Theorem full_text_input_empty (req : request) :
  full_text_input req = [] <->
  truthy (text_input req) = false
  /\ truthy (user_name req) = false /\ truthy (staff_name req) = false
  /\ truthy (date req) = false /\ truthy (location req) = false
  /\ truthy (time req) = false /\ truthy (count req) = false
  /\ truthy (next_date req) = false /\ truthy (cm_service_manager req) = false
  /\ truthy (cm_location req) = false /\ truthy (cm_time req) = false
  /\ truthy (cm_attendees req) = false.
Proof.
  unfold full_text_input. split.
  - intros H. apply app_eq_nil in H as [Ht Hm].
    apply manual_info_text_nil in Hm. unfold manual_info_list in Hm.
    repeat (apply app_eq_nil in Hm as [?%info_line_nil Hm]).
    apply info_line_nil in Hm.
    repeat split; try done. by destruct (text_input req) as [[|]|].
  - intros (Ht & H1 & H2 & H3 & H4 & H5 & H6 & H7 & H8 & H9 & H10 & H11).
    assert (manual_info_list req = []) as Hl.
    { unfold manual_info_list.
      by rewrite !(proj2 (info_line_nil _ _)). }
    apply manual_info_text_nil in Hl. rewrite Hl.
    by destruct (text_input req) as [[|]|].
Qed.

(* ===================================================================== *)
(** * The further properties on the small installation *)
(* ===================================================================== *)

Lemma override_frame_witness :
  (u8 "趣味" ∉ override_keys)
  /\ dict_get (@priority_override ascii_only ex_request ex_answer) (u8 "趣味")
     = Some (PStr (u8 "chess")).
Proof.
  assert (H : u8 "趣味" ∉ override_keys).
  { unfold override_keys.
    repeat (apply not_elem_of_cons; split; [literals_differ|]).
    apply not_elem_of_nil. }
  split; [exact H|].
  rewrite (@override_frame ascii_only ex_request ex_answer (u8 "趣味") H).
  reflexivity.
Defined.

Lemma override_keeps_keys_witness :
  dict_mem ex_answer (u8 "日付") = true
  /\ dict_mem (@priority_override ascii_only ex_request ex_answer) (u8 "日付") = true.
Proof.
  split; [reflexivity|].
  apply (@override_keeps_keys ascii_only ex_request ex_answer (u8 "日付")).
  reflexivity.
Defined.

Lemma blank_fields_override_nothing_witness :
  blank (user_name ex_request_blank) /\ blank (date ex_request_blank)
  /\ blank (cm_location ex_request_blank)
  /\ blank (cm_service_manager ex_request_blank)
  /\ @priority_override ascii_only ex_request_blank ex_answer = ex_answer.
Proof.
  do 4 (split; [reflexivity|]).
  apply (@blank_fields_override_nothing ascii_only ex_request_blank ex_answer);
    reflexivity.
Defined.

Lemma manual_fields_win_witness :
  strip (u8 "Sato") <> []
  /\ staff_name ex_request_meeting = Some (u8 "Sato")
  /\ dict_get (@priority_override ascii_only ex_request_meeting ex_answer)
       (u8 "作成者") = Some (PStr (u8 "Sato")).
Proof.
  assert (H : strip (u8 "Sato") <> []) by literals_differ.
  split; [exact H|]. split; [reflexivity|].
  destruct (@manual_fields_win ascii_only ex_request_meeting ex_answer
              (u8 "Sato") H) as (_ & Hs & _).
  apply Hs. reflexivity.
Defined.


Lemma strptime_calendar_day_witness :
  @strptime ascii_only (u8 "2024-02-29")
  = Some {| dt_year := 2024; dt_month := 2; dt_day := 29 |}
  /\ 29 <= days_in_month 2024 2 /\ len (u8 "2024-02-29") <= 10.
Proof.
  split; [reflexivity|].
  destruct (@strptime_calendar_day ascii_only (u8 "2024-02-29")
              {| dt_year := 2024; dt_month := 2; dt_day := 29 |} eq_refl)
    as (_ & _ & _ & _ & H & _ & _ & H10).
  split; [exact H | exact H10].
Defined.
